(** * open-search-dev: the dual-cluster document engine

    A shallow embedding of [search/document.go] and
    [search/opensearch/open_search.go].

    - Go strings are [string]; a [Document] (a Go map, hence a reference)
      is a nullable location in a heap of finite maps [gmap string Value].
    - A Go function that can panic is a computation in the monad [Go]:
      it threads the [World] (heap, clusters, request trace) and ends in
      [Return] or [Panic].  A Go result pair [(T, error)] is [error + T],
      a lone [error] result is [option error].
    - The clusters, the HTTP transport and [encoding/json] are external:
      they are the fields of the class [Env]. *)

From Stdlib Require Import ZArith.
From stdpp Require Import base strings gmap list fin_maps functions.
From stdpp Require pretty.

Set Warnings "-register-all".
Local Open Scope string_scope.
Local Open Scope Z_scope.

(* ===================================================================== *)
(** ** Dynamically typed values ([interface{}]) *)
(* ===================================================================== *)

(** A [time.Time]: three comparable machine words. *)
Record Time := mkTime { wall : Z; ext : Z; zone : Z }.

(** The value union held by a document field.  A [float64] is given by
    its IEEE-754 bit pattern, a 64-bit integer. *)
Inductive Value :=
  | VNil
  | VString (s : string)
  | VNumber (bits : Z)
  | VBool (b : bool)
  | VTime (t : Time)
  | VObject (fields : list (string * Value))
  | VList (items : list Value).

Abbreviation DocMap := (gmap string Value).

Module Float64.
Definition exponent (bits : Z) : Z := Z.land (Z.shiftr bits 52) 2047.
Definition mantissa (bits : Z) : Z := Z.land bits (Z.ones 52).
Definition isNaN (bits : Z) : bool :=
  (exponent bits =? 2047) && negb (mantissa bits =? 0).
Definition isZero (bits : Z) : bool := Z.land bits (Z.ones 63) =? 0.
(** [==] on float64: a NaN equals nothing, the two zeros are equal. *)
Definition eqb (a b : Z) : bool :=
  if isNaN a || isNaN b then false
  else if isZero a && isZero b then true
  else a =? b.
Definition one : Z := 4607182418800017408.
Definition NaN : Z := 9221120237041090560.
End Float64.

Definition Time_eqb (a b : Time) : bool :=
  (wall a =? wall b) && (ext a =? ext b) && (zone a =? zone b).

(** [v1 == v2] on two interface values.  Values of different dynamic
    types are unequal; two values of the same uncomparable dynamic type
    (a map or a slice) make the comparison panic: that is [None]. *)
Definition native_eq (v1 v2 : Value) : option bool :=
  match v1, v2 with
  | VNil, VNil => Some true
  | VString a, VString b => Some (bool_decide (a = b))
  | VNumber a, VNumber b => Some (Float64.eqb a b)
  | VBool a, VBool b => Some (Bool.eqb a b)
  | VTime a, VTime b => Some (Time_eqb a b)
  | VObject _, VObject _ => None
  | VList _, VList _ => None
  | _, _ => Some false
  end.

(* ===================================================================== *)
(** ** Errors *)
(* ===================================================================== *)

(** An [error] value.  The two package-level sentinels are compared by
    identity, so each is a constructor of its own.  [errorString] is what
    [errors.New] and a [fmt.Errorf] without [%w] produce; [wrapError] is a
    [fmt.Errorf] with [%w], which keeps the wrapped error reachable. *)
Inductive error :=
  | ErrDocumentNotFound
  | ErrDocumentMismatch
  | errorString (msg : string)
  | wrapError (msg : string) (inner : error).

Definition errors_New (msg : string) : error := errorString msg.

(** [err.Error()] *)
Definition Error (e : error) : string :=
  match e with
  | ErrDocumentNotFound => "document not found"
  | ErrDocumentMismatch => "document mismatch"
  | errorString msg => msg
  | wrapError msg _ => msg
  end.

Definition same_sentinel (e target : error) : bool :=
  match e, target with
  | ErrDocumentNotFound, ErrDocumentNotFound => true
  | ErrDocumentMismatch, ErrDocumentMismatch => true
  | _, _ => false
  end.

(** [errors.Is(e, target)] for a sentinel [target]: walk the [Unwrap]
    chain. *)
Fixpoint errors_Is (e target : error) : bool :=
  same_sentinel e target ||
  match e with
  | wrapError _ inner => errors_Is inner target
  | _ => false
  end.

(** [fmt.Errorf(prefix + "%v", err)] *)
Definition Errorf_v (prefix : string) (err : error) : error :=
  errorString (prefix +:+ Error err).

(** [fmt.Errorf(prefix + "%w", err)] *)
Definition Errorf_w (prefix : string) (err : error) : error :=
  wrapError (prefix +:+ Error err) err.

(** The result pair [(T, error)] of a Go function. *)
Abbreviation result T := (error + T)%type.

(* ===================================================================== *)
(** ** search/document.go: the key *)
(* ===================================================================== *)

(** [fmt.Sprintf("%s-%s-%s", instanceID, entityName, entityID)] *)
Definition GenerateDocumentID (instanceID entityName entityID : string) : string :=
  instanceID +:+ "-" +:+ entityName +:+ "-" +:+ entityID.

(** The separator, and whether a string holds it. *)
Definition sep : Ascii.ascii := Ascii.ascii_of_nat 45.

Fixpoint has_sep (s : string) : bool :=
  match s with
  | EmptyString => false
  | String c rest => bool_decide (c = sep) || has_sep rest
  end.

(* ===================================================================== *)
(** ** The world outside the engine *)
(* ===================================================================== *)

(** A [search.Document] is a Go map: [None] is the nil map, [Some l] the
    map stored at heap location [l]. *)
Abbreviation addr := nat.
Abbreviation Document := (option addr).

(** An [*opensearch.Client], identified by the endpoint it talks to. *)
Abbreviation Client := string.

(** The [opensearchapi] requests the engine builds for documents, index
    deletion and search. *)
Inductive Request (Bytes : Type) :=
  | IndexRequest (Index DocumentID : string) (Body : Bytes) (Refresh : string)
  | GetRequest (Index DocumentID : string)
  | DeleteRequest (Index DocumentID : string)
  | IndicesDeleteRequest (Index : string)
  | SearchRequest (Body : Bytes).
Arguments IndexRequest {Bytes}.
Arguments GetRequest {Bytes}.
Arguments DeleteRequest {Bytes}.
Arguments IndicesDeleteRequest {Bytes}.
Arguments SearchRequest {Bytes}.

Record Response (Bytes : Type) := mkResponse { StatusCode : Z; Body : Bytes }.
Arguments mkResponse {Bytes}.
Arguments StatusCode {Bytes}.
Arguments Body {Bytes}.

(** [resp.IsError()] of opensearchapi: a status above 299. *)
Definition IsError {Bytes} (resp : Response Bytes) : bool := 299 <? StatusCode resp.

Definition StatusNotFound : Z := 404.

(** What the engine is linked against: the wire format and
    [encoding/json], the clusters behind the clients ([Do] is
    [req.Do(ctx, client)]: a transport error or a response, and the
    cluster's next state), the library's printers, and the order in which
    [range] visits a map. *)
Class Env := {
  Bytes : Type;
  Cluster : Type;
  json_Marshal : Value -> result Bytes;
  json_Decode_source : Bytes -> result (option DocMap);
  json_Decode_hits : Bytes -> result (list (option DocMap));
  Response_String : Response Bytes -> string;
  strconv_Quote : string -> string;
  rangeOrder : DocMap -> list (string * Value);
  Do : Request Bytes -> Cluster -> result (Response Bytes) * Cluster
}.

(** [search.IndexOptions], [search.IndexOption] and [search.Query] as the
    engine uses them. *)
Record IndexOptions := { Refresh : bool }.
Definition IndexOption := IndexOptions -> IndexOptions.
(** The field [Value] of a [search.Query]. *)
Record Query := { Value_ : string }.

Definition strconv_FormatBool (b : bool) : string := if b then "true" else "false".

Inductive outcome (A : Type) :=
  | Return (a : A)
  | Panic (msg : string).
Arguments Return {A}.
Arguments Panic {A}.

Section Engine.
Context `{env : Env}.

Record World := mkWorld {
  heap : gmap addr DocMap;
  clusters : Client -> Cluster;
  trace : list (Client * Request Bytes)
}.

Definition Go (A : Type) : Type := World -> outcome A * World.

#[local] Instance Go_ret : MRet Go := fun A a w => (Return a, w).
#[local] Instance Go_bind : MBind Go := fun A B k m w =>
  match m w with
  | (Return a, w') => k a w'
  | (Panic msg, w') => (Panic msg, w')
  end.

(** The contents of a map; every read of the nil map sees no entry. *)
Definition deref (h : gmap addr DocMap) (d : Document) : DocMap :=
  match d with
  | None => ∅
  | Some l => h !!! l
  end.

Definition load (d : Document) : Go DocMap := fun w => (Return (deref (heap w) d), w).

(** [d[k] = v] *)
Definition store (d : Document) (k : string) (v : Value) : Go unit := fun w =>
  match d with
  | None => (Panic "assignment to entry in nil map", w)
  | Some l =>
      (Return tt, mkWorld (<[l := <[k := v]> (heap w !!! l)]> (heap w)) (clusters w) (trace w))
  end.

(** A map built by the decoder: a new location. *)
Definition alloc (m : DocMap) : Go Document := fun w =>
  let l := fresh (dom (heap w)) in
  (Return (Some l), mkWorld (<[l := m]> (heap w)) (clusters w) (trace w)).

(** [req.Do(ctx, client)] *)
Definition request (client : Client) (req : Request Bytes) : Go (result (Response Bytes)) := fun w =>
  let '(r, c') := Do req (clusters w client) in
  (Return r, mkWorld (heap w) (<[client := c']> (clusters w)) (trace w ++ [(client, req)])).

(* ===================================================================== *)
(** ** search/document.go: metadata *)
(* ===================================================================== *)

Definition AddDocumentMetaData (d : Document) (instanceID entityName entityID : string)
  : Go (result Document) :=
  if bool_decide (entityID = EmptyString) then mret (inl (errors_New "entityID is required"))
  else if bool_decide (instanceID = EmptyString) then mret (inl (errors_New "instanceID is required"))
  else if bool_decide (entityName = EmptyString) then mret (inl (errors_New "entityName is required"))
  else
    store d "id" (VString entityID);;
    store d "instance_id" (VString instanceID);;
    store d "entity_name" (VString entityName);;
    mret (inr d).

(* ===================================================================== *)
(** ** search/opensearch/open_search.go *)
(* ===================================================================== *)

Record OpenSearch := mkOpenSearch {
  primaryClient : Client;
  secondaryClient : option Client
}.

Definition executeRequest (client : Client) (req : Request Bytes) : Go (option error) :=
  r ← request client req;
  match r with
  | inl err => mret (Some (Errorf_v "error executing request: " err))
  | inr resp =>
      if IsError resp
      then mret (Some (errorString ("request failed: " +:+ Response_String resp)))
      else mret None
  end.

Definition executeReadRequest (client : Client) (req : Request Bytes)
  : Go (result (Response Bytes)) :=
  r ← request client req;
  match r with
  | inl err => mret (inl (Errorf_v "error executing request: " err))
  | inr resp => mret (inr resp)
  end.

(** [decodeResponse(resp, &target)]; [decode] is the JSON decoder for the
    type of [target]. *)
Definition decodeResponse {T} (decode : Bytes -> result T) (resp : Response Bytes) : result T :=
  if IsError resp then
    if StatusCode resp =? StatusNotFound then inl ErrDocumentNotFound
    else inl (errorString ("error in response: " +:+ Response_String resp))
  else decode (Body resp).

Definition putDocument (client : Client) (indexName documentID : string)
    (body : Bytes) (refresh : string) : Go (option error) :=
  executeRequest client (IndexRequest indexName documentID body refresh).

(** The decoded [_source] is a map the decoder has just made, or the nil
    map when the body has none. *)
Definition findDocument (client : Client) (indexName documentID : string)
  : Go (result Document) :=
  r ← executeReadRequest client (GetRequest indexName documentID);
  match r with
  | inl err => mret (inl err)
  | inr resp =>
      match decodeResponse json_Decode_source resp with
      | inl err => mret (inl err)
      | inr None => mret (inr None)
      | inr (Some m) => d ← alloc m; mret (inr d)
      end
  end.

Definition deleteDocument (client : Client) (indexName documentID : string)
  : Go (option error) :=
  executeRequest client (DeleteRequest indexName documentID).

Definition deleteIndex (client : Client) (indexName : string) : Go (option error) :=
  executeRequest client (IndicesDeleteRequest indexName).

(** The loop of [compareDocuments] over the entries of [doc1], in the
    order [range] yields them. *)
Fixpoint compareEntries (entries : list (string * Value)) (doc2 : DocMap) : outcome bool :=
  match entries with
  | [] => Return true
  | (key, value1) :: rest =>
      match doc2 !! key with
      | Some value2 =>
          match native_eq value1 value2 with
          | None => Panic "comparing uncomparable type"
          | Some false => Return false
          | Some true => compareEntries rest doc2
          end
      | None => Return false
      end
  end.

Definition compareMaps (doc1 doc2 : DocMap) : outcome bool :=
  if negb (bool_decide (size doc1 = size doc2)) then Return false
  else compareEntries (rangeOrder doc1) doc2.

Definition compareDocuments (doc1 doc2 : Document) : Go bool := fun w =>
  (compareMaps (deref (heap w) doc1) (deref (heap w) doc2), w).

(** What [json.Marshal] sees of a document. *)
Definition Document_value (d : Document) (m : DocMap) : Value :=
  match d with
  | None => VNil
  | Some _ => VObject (map_to_list m)
  end.

Definition PutDocument (os : OpenSearch) (instanceID indexName entityName entityID : string)
    (document : Document) (opts : list IndexOption) : Go (option error) :=
  r ← AddDocumentMetaData document instanceID entityName entityID;
  match r with
  | inl err => mret (Some (Errorf_v "missing document meta data " err))
  | inr d =>
      m ← load d;
      match json_Marshal (Document_value d m) with
      | inl err => mret (Some (Errorf_v "failed to marshal document " err))
      | inr docByte =>
          let documentID := GenerateDocumentID instanceID entityName entityID in
          let options := foldl (fun o (opt : IndexOption) => opt o) {| Refresh := false |} opts in
          let refresh := strconv_FormatBool (Refresh options) in
          e ← putDocument (primaryClient os) indexName documentID docByte refresh;
          match e with
          | Some err => mret (Some (Errorf_v "primary client: " err))
          | None =>
              match secondaryClient os with
              | Some sc =>
                  e2 ← putDocument sc indexName documentID docByte refresh;
                  match e2 with
                  | Some err => mret (Some (Errorf_v "secondary client: " err))
                  | None => mret None
                  end
              | None => mret None
              end
          end
      end
  end.

Definition FindDocument (os : OpenSearch) (instanceID indexName entityName entityID : string)
  : Go (result Document) :=
  let documentID := GenerateDocumentID instanceID entityName entityID in
  r ← findDocument (primaryClient os) indexName documentID;
  match r with
  | inl err => mret (inl (Errorf_w "primary client: " err))
  | inr pryDoc =>
      match secondaryClient os with
      | Some sc =>
          r2 ← findDocument sc indexName documentID;
          match r2 with
          | inl err => mret (inl (Errorf_w "secondary client: " err))
          | inr secDoc =>
              same ← compareDocuments pryDoc secDoc;
              if negb same
              then mret (inl (Errorf_w ("documents mismatch for id " +:+ strconv_Quote entityID +:+ ": ")
                                       ErrDocumentMismatch))
              else mret (inr pryDoc)
          end
      | None => mret (inr pryDoc)
      end
  end.

Definition DeleteDocument (os : OpenSearch) (instanceID indexName entityName entityID : string)
  : Go (option error) :=
  let documentID := GenerateDocumentID instanceID entityName entityID in
  e ← deleteDocument (primaryClient os) indexName documentID;
  match e with
  | Some err => mret (Some (Errorf_v "primary client: " err))
  | None =>
      match secondaryClient os with
      | Some sc =>
          e2 ← deleteDocument sc indexName documentID;
          match e2 with
          | Some err => mret (Some (Errorf_v "secondary client: " err))
          | None => mret None
          end
      | None => mret None
      end
  end.

Definition DeleteIndex (os : OpenSearch) (indexName : string) : Go (option error) :=
  e ← deleteIndex (primaryClient os) indexName;
  match e with
  | Some err => mret (Some (Errorf_v "primary client: " err))
  | None =>
      match secondaryClient os with
      | Some sc =>
          e2 ← deleteIndex sc indexName;
          match e2 with
          | Some err => mret (Some (Errorf_v "secondary client: " err))
          | None => mret None
          end
      | None => mret None
      end
  end.

Definition constructSearchQuery (instanceID : string) (query : Query) : Value :=
  VObject [("query", VObject [("bool", VObject [
    ("must", VObject [("query_string", VObject [("query", VString (Value_ query))])]);
    ("filter", VObject [("term", VObject [("instance_id", VString instanceID)])])])])].

Fixpoint allocAll (sources : list (option DocMap)) : Go (list Document) :=
  match sources with
  | [] => mret []
  | None :: rest => ds ← allocAll rest; mret (None :: ds)
  | Some m :: rest => d ← alloc m; ds ← allocAll rest; mret (d :: ds)
  end.

Definition extractDocumentsFromSearchResponse (resp : Response Bytes)
  : Go (result (list Document)) :=
  match decodeResponse json_Decode_hits resp with
  | inl err => mret (inl err)
  | inr hits => documents ← allocAll hits; mret (inr documents)
  end.

Definition Search (os : OpenSearch) (instanceID : string) (query : Query)
  : Go (result (list Document)) :=
  let searchQuery := constructSearchQuery instanceID query in
  match json_Marshal searchQuery with
  | inl err => mret (inl (Errorf_v "failed to marshal search query: " err))
  | inr q =>
      r ← executeReadRequest (primaryClient os) (SearchRequest q);
      match r with
      | inl err => mret (inl err)
      | inr resp => extractDocumentsFromSearchResponse resp
      end
  end.

(* ===================================================================== *)
(** ** Vocabulary of the specifications *)
(* ===================================================================== *)

(** The world after [req] went through [client] and left its cluster in
    state [c']. *)
Definition sent (client : Client) (req : Request Bytes) (c' : Cluster) (w : World) : World :=
  mkWorld (heap w) (<[client := c']> (clusters w)) (trace w ++ [(client, req)]).

(** A cluster step fails: no response at all, or an error status. *)
Definition fails (r : result (Response Bytes)) : bool :=
  match r with
  | inl _ => true
  | inr resp => IsError resp
  end.

(** The three metadata fields, set in the order of the source. *)
Definition stamped (instanceID entityName entityID : string) (m : DocMap) : DocMap :=
  <["entity_name" := VString entityName]>
    (<["instance_id" := VString instanceID]> (<["id" := VString entityID]> m)).

Definition stampedWorld (l : addr) (instanceID entityName entityID : string) (w : World) : World :=
  mkWorld (<[l := stamped instanceID entityName entityID (heap w !!! l)]> (heap w))
          (clusters w) (trace w).

(** An error whose text starts with the name of a cluster. *)
Definition tagged (tag : string) (e : error) : Prop :=
  ∃ msg, Error e = (tag +:+ " client: ") +:+ msg.

(** Follow a path of field names into nested objects. *)
Fixpoint assoc (k : string) (fields : list (string * Value)) : option Value :=
  match fields with
  | [] => None
  | (k', v) :: rest => if bool_decide (k = k') then Some v else assoc k rest
  end.

Fixpoint lookupPath (path : list string) (v : Value) : option Value :=
  match path with
  | [] => Some v
  | k :: rest =>
      match v with
      | VObject fields =>
          match assoc k fields with
          | Some v' => lookupPath rest v'
          | None => None
          end
      | _ => None
      end
  end.

Definition instanceFilter (q : Value) : option Value :=
  lookupPath ["query"; "bool"; "filter"; "term"; "instance_id"] q.

(** The error [executeRequest] makes of the outcome of [req.Do]. *)
Definition requestError (r : result (Response Bytes)) : option error :=
  match r with
  | inl err => Some (Errorf_v "error executing request: " err)
  | inr resp =>
      if IsError resp then Some (errorString ("request failed: " +:+ Response_String resp))
      else None
  end.

(** The pattern the three write operations share, written once: the
    primary step, then the secondary step when a secondary is configured
    and the primary step went through. *)
Definition fanOut (os : OpenSearch) (req : Request Bytes) (w : World)
  : outcome (option error) * World :=
  let r1 := Do req (clusters w (primaryClient os)) in
  let w1 := sent (primaryClient os) req r1.2 w in
  match requestError r1.1 with
  | Some err => (Return (Some (Errorf_v "primary client: " err)), w1)
  | None =>
      match secondaryClient os with
      | None => (Return None, w1)
      | Some sc =>
          let r2 := Do req (clusters w1 sc) in
          let w2 := sent sc req r2.2 w1 in
          match requestError r2.1 with
          | Some err => (Return (Some (Errorf_v "secondary client: " err)), w2)
          | None => (Return None, w2)
          end
      end
  end.

(** The refresh flag a call of [PutDocument] sends. *)
Definition refreshOf (opts : list IndexOption) : string :=
  strconv_FormatBool (Refresh (foldl (fun o (opt : IndexOption) => opt o) {| Refresh := false |} opts)).

(** What a caller can rely on when an operation sends [req] to the
    clusters starting from world [w0] and ends in [run]: the primary
    request is the first one sent; a failing primary step gives a
    primary-tagged error with nothing else sent and every other cluster
    as it was; a failing secondary step after a good primary step gives a
    secondary-tagged error, and the primary cluster keeps the state its
    own step left it in. *)
Definition fanOut_contract (os : OpenSearch) (req : Request Bytes) (w0 : World)
    (run : outcome (option error) * World) : Prop :=
  let prim := primaryClient os in
  let r1 := Do req (clusters w0 prim) in
  (∃ later, trace run.2 = (trace w0 ++ (prim, req) :: later)%list)
  ∧ (fails r1.1 = true →
       ∃ e, run.1 = Return (Some e) ∧ tagged "primary" e
         ∧ trace run.2 = (trace w0 ++ [(prim, req)])%list
         ∧ ∀ c, c ≠ prim → clusters run.2 c = clusters w0 c)
  ∧ (fails r1.1 = false →
       ∀ sc, secondaryClient os = Some sc →
         fails (Do req (clusters (sent prim req r1.2 w0) sc)).1 = true →
         ∃ e, run.1 = Return (Some e) ∧ tagged "secondary" e
           ∧ trace run.2 = (trace w0 ++ [(prim, req); (sc, req)])%list
           ∧ (sc ≠ prim → clusters run.2 prim = r1.2)).

(** The values [==] is defined on. *)
Definition comparable (v : Value) : bool :=
  match v with
  | VObject _ | VList _ => false
  | _ => true
  end.

(** Field-by-field equality as the specification words it, with [==] as
    the equality on values. *)
Definition fieldwise_equal (doc1 doc2 : DocMap) : Prop :=
  size doc1 = size doc2
  ∧ ∀ key value1, doc1 !! key = Some value1 →
      ∃ value2, doc2 !! key = Some value2 ∧ native_eq value1 value2 = Some true.

(** The world after the decoder has put [m] at a new location. *)
Definition allocated (m : DocMap) (w : World) : World :=
  mkWorld (<[fresh (dom (heap w)) := m]> (heap w)) (clusters w) (trace w).


(** The contract of a cluster that the isolation of tenants rests on:
    every hit of a search whose query carries a term filter on
    [instance_id] has that very [instance_id]. *)
Definition honours_instance_filter : Prop :=
  ∀ (c c' : Cluster) (q : Value) (x : string) (body : Bytes) (resp : Response Bytes)
    (hits : list (option DocMap)),
    json_Marshal q = inr body →
    instanceFilter q = Some (VString x) →
    Do (SearchRequest body) c = (inr resp, c') →
    IsError resp = false →
    json_Decode_hits (Body resp) = inr hits →
    Forall (fun hit => ∃ m : DocMap, hit = Some m ∧ m !! "instance_id" = Some (VString x)) hits.

End Engine.

(* ===================================================================== *)
(** ** An in-memory environment *)
(* ===================================================================== *)

(** Two-line clusters for running the engine: the wire carries the JSON
    value itself, a cluster is a table of stored sources by index and id
    and answers 503 while [down]; a search returns the sources that pass
    the [instance_id] term filter. *)
Module Mem.

Record cluster := mkCluster {
  docs : gmap (string * string) DocMap;
  down : bool
}.

Definition source (m : DocMap) : Value := VObject [("_source", VObject (map_to_list m))].

Definition passes (x : Value) (m : DocMap) : bool :=
  match x, m !! "instance_id" with
  | VString a, Some (VString b) => bool_decide (a = b)
  | _, _ => false
  end.

Definition do (req : Request Value) (c : cluster) : result (Response Value) * cluster :=
  if down c then (inr (mkResponse 503 VNil), c) else
  match req with
  | IndexRequest idx id body _ =>
      match body with
      | VObject fields => (inr (mkResponse 201 VNil), mkCluster (<[(idx, id) := list_to_map fields]> (docs c)) false)
      | _ => (inr (mkResponse 400 VNil), c)
      end
  | GetRequest idx id =>
      match docs c !! (idx, id) with
      | Some m => (inr (mkResponse 200 (source m)), c)
      | None => (inr (mkResponse 404 VNil), c)
      end
  | DeleteRequest idx id =>
      match docs c !! (idx, id) with
      | Some _ => (inr (mkResponse 200 VNil), mkCluster (delete (idx, id) (docs c)) false)
      | None => (inr (mkResponse 404 VNil), c)
      end
  | IndicesDeleteRequest idx =>
      (inr (mkResponse 200 VNil),
       mkCluster (filter (fun kv => kv.1.1 ≠ idx) (docs c)) false)
  | SearchRequest body =>
      match instanceFilter body with
      | Some x =>
          let found := filter (fun m => passes x m = true) (snd <$> map_to_list (docs c)) in
          (inr (mkResponse 200 (VObject [("hits", VObject [("hits", VList (source <$> found))])])), c)
      | None => (inr (mkResponse 400 VNil), c)
      end
  end.

Definition decodeSource (b : Value) : result (option DocMap) :=
  match b with
  | VObject fields =>
      match assoc "_source" fields with
      | Some (VObject src) => inr (Some (list_to_map src))
      | Some VNil | None => inr None
      | Some _ => inl (errorString "json: cannot unmarshal into Go value of type search.Document")
      end
  | _ => inl (errorString "json: cannot unmarshal into Go value of type struct")
  end.

Definition hitSource (h : Value) : option DocMap :=
  match decodeSource h with
  | inr o => o
  | inl _ => None
  end.

Definition decodeHits (b : Value) : result (list (option DocMap)) :=
  match lookupPath ["hits"; "hits"] b with
  | Some (VList hs) => inr (hitSource <$> hs)
  | _ => inr []
  end.

Definition quote (s : string) : string :=
  String (Ascii.ascii_of_nat 34) s +:+ String (Ascii.ascii_of_nat 34) EmptyString.

#[export] Instance env : Env := {|
  Bytes := Value;
  Cluster := cluster;
  json_Marshal := inr;
  json_Decode_source := decodeSource;
  json_Decode_hits := decodeHits;
  Response_String := fun _ => "[response]";
  strconv_Quote := quote;
  rangeOrder := map_to_list;
  Do := do
|}.

Definition empty : cluster := mkCluster ∅ false.
Definition unreachable : cluster := mkCluster ∅ true.

(** A world with one caller-owned map at location 0. *)
Definition world (m : DocMap) (primary secondary : cluster) : World :=
  mkWorld {[ 0%nat := m ]}
          (fun c => if bool_decide (c = "primary") then primary else secondary) [].

Definition single : OpenSearch := mkOpenSearch "primary" None.
Definition dual : OpenSearch := mkOpenSearch "primary" (Some "secondary").

Definition holding (idx id : string) (m : DocMap) : cluster :=
  mkCluster {[ (idx, id) := m ]} false.

(** The worlds the engine is run on below: a caller's document and two
    empty clusters; the same with the secondary down; a document whose
    one field is a list, stored with different lists on the two
    clusters; a document the secondary has not got; a document the
    primary has not got; two tenants with the same text. *)
Definition fresh_world : World := world {[ "name" := VString "A" ]} empty empty.
Definition split_world : World := world {[ "name" := VString "A" ]} empty unreachable.
Definition lists_world : World :=
  world ∅ (holding "idx" "i-person-1" {[ "tags" := VList [VString "a"] ]})
          (holding "idx" "i-person-1" {[ "tags" := VList [VString "b"] ]}).
Definition behind_world : World :=
  world ∅ (holding "idx" "i-person-1" {[ "name" := VString "A" ]}) empty.
Definition vacant_world : World :=
  world ∅ empty (holding "idx" "i-person-1" {[ "name" := VString "A" ]}).
Definition tenants_world : World :=
  world ∅ (mkCluster
             (<[("idx", "i-person-1") := {[ "instance_id" := VString "i"; "name" := VString "Doe" ]}]>
               {[ ("idx", "j-person-1") := {[ "instance_id" := VString "j"; "name" := VString "Doe" ]} ]})
             false)
          empty.

End Mem.

(* ===================================================================== *)
(** ** search/opensearch/open_search.go: construction and indices *)
(* ===================================================================== *)

(** The two [opensearchapi] requests of index administration. *)
Inductive IndicesRequest (Bytes : Type) :=
  | IndicesExistsRequest (Index : list string)
  | IndicesCreateRequest (Index : string) (Body : Bytes).
Arguments IndicesExistsRequest {Bytes}.
Arguments IndicesCreateRequest {Bytes}.

(** What construction and index administration are linked against on top
    of [Env]: [req.Do(ctx, client)] for the two requests above, and
    [opensearch.NewClient] for one address, which may refuse it. *)
Class AdminEnv (env : Env) := {
  DoIndices : IndicesRequest Bytes -> Cluster -> result (Response Bytes) * Cluster;
  NewClient : string -> result Client
}.

Definition StatusOK : Z := 200.

Section Admin.
Context `{env : Env} {adm : AdminEnv env}.

(** An option receives the engine by pointer: it returns the engine as it
    leaves it, and its error. *)
Definition OpenSearchOption := OpenSearch -> OpenSearch * option error.

Definition WithSecondaryEndpoint (endpoint : string) : OpenSearchOption := fun os =>
  match NewClient endpoint with
  | inl err => (os, Some err)
  | inr client => (mkOpenSearch (primaryClient os) (Some client), None)
  end.

(** The loop of [NewOpenSearch] over its options. *)
Fixpoint applyOptions (opts : list OpenSearchOption) (os : OpenSearch) : result OpenSearch :=
  match opts with
  | [] => inr os
  | opt :: rest =>
      match opt os with
      | (_, Some err) => inl err
      | (os', None) => applyOptions rest os'
      end
  end.

(** The engine [NewOpenSearch] builds; the logging middleware it is
    returned in hands every call through. *)
Definition NewOpenSearch (endpoint : string) (opts : list OpenSearchOption) : result OpenSearch :=
  match NewClient endpoint with
  | inl err => inl err
  | inr client => applyOptions opts (mkOpenSearch client None)
  end.

(** Index administration runs on the world and a trace of its own
    requests. *)
Record AdminWorld := mkAdminWorld {
  docWorld : World;
  indicesTrace : list (Client * IndicesRequest Bytes)
}.

Definition Adm (A : Type) : Type := AdminWorld -> A * AdminWorld.

#[local] Instance Adm_ret : MRet Adm := fun A a aw => (a, aw).
#[local] Instance Adm_bind : MBind Adm := fun A B k m aw =>
  let '(a, aw') := m aw in k a aw'.

(** [req.Do(ctx, client)] for a request on indices. *)
Definition requestIndices (client : Client) (req : IndicesRequest Bytes)
  : Adm (result (Response Bytes)) := fun aw =>
  let '(r, c') := DoIndices req (clusters (docWorld aw) client) in
  (r, mkAdminWorld
        (mkWorld (heap (docWorld aw)) (<[client := c']> (clusters (docWorld aw))) (trace (docWorld aw)))
        (indicesTrace aw ++ [(client, req)])).

(** [executeRequest] at a request on indices. *)
Definition executeIndicesRequest (client : Client) (req : IndicesRequest Bytes)
  : Adm (option error) :=
  r ← requestIndices client req;
  match r with
  | inl err => mret (Some (Errorf_v "error executing request: " err))
  | inr resp =>
      if IsError resp
      then mret (Some (errorString ("request failed: " +:+ Response_String resp)))
      else mret None
  end.

(** [executeReadRequest] at a request on indices. *)
Definition executeReadIndicesRequest (client : Client) (req : IndicesRequest Bytes)
  : Adm (result (Response Bytes)) :=
  r ← requestIndices client req;
  match r with
  | inl err => mret (inl (Errorf_v "error executing request: " err))
  | inr resp => mret (inr resp)
  end.

Definition indexExists (client : Client) (indexName : string) : Adm (result bool) :=
  r ← executeReadIndicesRequest client (IndicesExistsRequest [indexName]);
  match r with
  | inl err => mret (inl err)
  | inr resp =>
      if StatusCode resp =? StatusOK then mret (inr true)
      else if StatusCode resp =? StatusNotFound then mret (inr false)
      else mret (inl (errorString ("unexpected response status checking index exists: "
                                   +:+ pretty.pretty (StatusCode resp))))
  end.

Definition createIndex (client : Client) (indexName : string) (body : Bytes) : Adm (option error) :=
  executeIndicesRequest client (IndicesCreateRequest indexName body).

Definition ensureIndex (client : Client) (indexName : string) (body : Bytes) : Adm (option error) :=
  r ← indexExists client indexName;
  match r with
  | inl err => mret (Some (Errorf_v "failed to check if index exist: " err))
  | inr exists_ =>
      if negb exists_ then
        e ← createIndex client indexName body;
        match e with
        | Some err => mret (Some (Errorf_v "failed to create index: " err))
        | None => mret None
        end
      else mret None
  end.

(** What [json.Marshal] sees of an index configuration. *)
Definition config_value (config : option DocMap) : Value :=
  match config with
  | None => VNil
  | Some m => VObject (map_to_list m)
  end.

Definition CreateIndex (os : OpenSearch) (indexName : string) (config : option DocMap)
  : Adm (option error) :=
  match json_Marshal (config_value config) with
  | inl err => mret (Some (Errorf_v "failed to marshal index config " err))
  | inr configByte =>
      e ← ensureIndex (primaryClient os) indexName configByte;
      match e with
      | Some err => mret (Some (Errorf_v "primary client: " err))
      | None =>
          match secondaryClient os with
          | Some sc =>
              e2 ← ensureIndex sc indexName configByte;
              match e2 with
              | Some err => mret (Some (Errorf_v "secondary client: " err))
              | None => mret None
              end
          | None => mret None
          end
      end
  end.

(** The admin world after [req] went through [client] and left its
    cluster in state [c']. *)
Definition sentIndices (client : Client) (req : IndicesRequest Bytes) (c' : Cluster)
    (aw : AdminWorld) : AdminWorld :=
  mkAdminWorld
    (mkWorld (heap (docWorld aw)) (<[client := c']> (clusters (docWorld aw))) (trace (docWorld aw)))
    (indicesTrace aw ++ [(client, req)]).

End Admin.

(** The in-memory clusters under index administration: an index exists
    once a key of the table names it, and creating it reserves the key
    with the empty id. *)
Module MemAdmin.

Definition has_index (idx : string) (c : Mem.cluster) : bool :=
  bool_decide (filter (fun kv => kv.1.1 = idx) (Mem.docs c) ≠ ∅).

Definition doIndices (req : IndicesRequest Value) (c : Mem.cluster)
  : result (Response Value) * Mem.cluster :=
  if Mem.down c then (inr (mkResponse 503 VNil), c) else
  match req with
  | IndicesExistsRequest [idx] =>
      if has_index idx c then (inr (mkResponse 200 VNil), c)
      else (inr (mkResponse 404 VNil), c)
  | IndicesExistsRequest _ => (inr (mkResponse 400 VNil), c)
  | IndicesCreateRequest idx _ =>
      if has_index idx c then (inr (mkResponse 400 VNil), c)
      else (inr (mkResponse 200 VNil),
            Mem.mkCluster (<[(idx, EmptyString) := ∅]> (Mem.docs c)) false)
  end.

(** Only well-formed addresses get a client. *)
Definition newClient (endpoint : string) : result Client :=
  if bool_decide (endpoint = EmptyString) then inl (errorString "cannot parse url")
  else inr endpoint.

#[export] Instance adm : AdminEnv Mem.env :=
  @Build_AdminEnv Mem.env doIndices newClient.

Definition admin (w : @World Mem.env) : @AdminWorld Mem.env := mkAdminWorld w [].

End MemAdmin.

(** More worlds for the in-memory clusters: the same document on both;
    two documents that differ in a string; the primary down. *)
Module MemCases.

Definition agreed_world : @World Mem.env :=
  Mem.world ∅ (Mem.holding "idx" "i-person-1" {[ "name" := VString "A" ]})
              (Mem.holding "idx" "i-person-1" {[ "name" := VString "A" ]}).

Definition differ_world : @World Mem.env :=
  Mem.world ∅ (Mem.holding "idx" "i-person-1" {[ "name" := VString "A" ]})
              (Mem.holding "idx" "i-person-1" {[ "name" := VString "B" ]}).

Definition down_world : @World Mem.env := Mem.world ∅ Mem.unreachable Mem.empty.

End MemCases.

(** A stricter in-memory environment: the encoder refuses a field that
    is not a number (NaN), as [encoding/json] does, and the clusters
    answer a lookup without the [_source] of the document. *)
Module MemStrict.

Definition finite (v : Value) : bool :=
  match v with
  | VNumber bits => negb (Float64.isNaN bits)
  | _ => true
  end.

Definition marshal (v : Value) : result Value :=
  match v with
  | VObject fields =>
      if forallb (fun kv : string * Value => finite kv.2) fields then inr v
      else inl (errorString "json: unsupported value: NaN")
  | _ => inr v
  end.

Definition do (req : Request Value) (c : Mem.cluster) : result (Response Value) * Mem.cluster :=
  match req, Mem.do req c with
  | GetRequest _ _, (inr resp, c') => (inr (mkResponse (StatusCode resp) (VObject [])), c')
  | _, rc => rc
  end.

Definition env : Env := {|
  Bytes := Value;
  Cluster := Mem.cluster;
  json_Marshal := marshal;
  json_Decode_source := Mem.decodeSource;
  json_Decode_hits := Mem.decodeHits;
  Response_String := fun _ => "[response]";
  strconv_Quote := Mem.quote;
  rangeOrder := map_to_list;
  Do := do
|}.

Definition world (m : DocMap) (primary secondary : Mem.cluster) : @World env :=
  @mkWorld env {[ 0%nat := m ]}
           (fun c => if bool_decide (c = "primary") then primary else secondary) [].

Definition nan_world : @World env :=
  world {[ "score" := VNumber Float64.NaN ]} Mem.empty Mem.empty.

Definition stored_world : @World env :=
  world ∅ (Mem.holding "idx" "i-person-1" {[ "name" := VString "A" ]}) Mem.empty.

End MemStrict.



(* ===================================================================== *)
(** ** Values and keys on small inputs *)
(* ===================================================================== *)

Example native_eq_NaN : native_eq (VNumber Float64.NaN) (VNumber Float64.NaN) = Some false.
Proof. reflexivity. Qed.

Example native_eq_zeros : native_eq (VNumber 0) (VNumber (2 ^ 63)) = Some true.
Proof. reflexivity. Qed.

Example native_eq_kinds : native_eq (VString "1") (VNumber Float64.one) = Some false.
Proof. reflexivity. Qed.

Example native_eq_lists : native_eq (VList []) (VList []) = None.
Proof. reflexivity. Qed.

Example GenerateDocumentID_main :
  GenerateDocumentID "instance-id" "person" "person-id-1" = "instance-id-person-person-id-1".
Proof. reflexivity. Qed.

Example errors_Is_wrapped :
  errors_Is (Errorf_w "primary client: " ErrDocumentNotFound) ErrDocumentNotFound = true
  ∧ errors_Is (Errorf_v "primary client: " ErrDocumentNotFound) ErrDocumentNotFound = false.
Proof. split; reflexivity. Qed.

(* ===================================================================== *)
(** ** The key *)
(* ===================================================================== *)


Lemma append_String (c : Ascii.ascii) (s t : string) : String c s +:+ t = String c (s +:+ t).
Proof. reflexivity. Qed.

(** A component without the separator is recovered from the joined text. *)
Lemma split_at_first_sep (a a' r r' : string) :
  has_sep a = false → has_sep a' = false →
  a +:+ "-" +:+ r = a' +:+ "-" +:+ r' → a = a' ∧ r = r'.
Proof.
  revert a'. induction a as [|c a IH]; intros [|c' a'] Ha Ha' E; cbn in *.
  - by injection E.
  - injection E as E1 E2. subst c'.
    change (Ascii.Ascii _ _ _ _ _ _ _ _) with sep in Ha'.
    by rewrite bool_decide_eq_true_2 in Ha'.
  - injection E as E1 E2. subst c.
    change (Ascii.Ascii _ _ _ _ _ _ _ _) with sep in Ha.
    by rewrite bool_decide_eq_true_2 in Ha.
  - injection E as E1 E2. subst c'.
    apply orb_false_iff in Ha as [_ Ha]. apply orb_false_iff in Ha' as [_ Ha'].
    destruct (IH a' Ha Ha' E2) as [-> ->]. done.
Qed.

(** The key is a function of the triple, and it determines the triple as
    long as the first two components are free of the separator. *)
Lemma GenerateDocumentID_injective_without_sep (i n e i' n' e' : string) :
  has_sep i = false → has_sep n = false → has_sep i' = false → has_sep n' = false →
  GenerateDocumentID i n e = GenerateDocumentID i' n' e' → i = i' ∧ n = n' ∧ e = e'.
Proof.
  unfold GenerateDocumentID. intros Hi Hn Hi' Hn' E.
  apply split_at_first_sep in E as [-> E]; [|done..].
  apply split_at_first_sep in E as [-> ->]; done.
Qed.

(** C8 (the code at the colliding input): the triple of main.go,
    ("instance-id", "person", "person-id-1"), and the different triple
    ("instance", "id-person", "person-id-1") are both made of non-empty
    strings and get the same document key, although equal triples always
    get equal keys. *)
Theorem GenerateDocumentID_collision :
  ("instance-id", "person", "person-id-1") ≠ ("instance", "id-person", "person-id-1")
  ∧ GenerateDocumentID "instance-id" "person" "person-id-1"
    = GenerateDocumentID "instance" "id-person" "person-id-1"
  ∧ (∀ i n e i' n' e' : string, (i, n, e) = (i', n', e') →
       GenerateDocumentID i n e = GenerateDocumentID i' n' e').
Proof.
  split; [discriminate|]. split; [reflexivity|].
  intros i n e i' n' e' E. by injection E as -> -> ->.
Qed.

(* ===================================================================== *)
(** ** Metadata stamping *)
(* ===================================================================== *)

Section Stamping.
Context `{env : Env}.

(** C9: with an empty identifier, [AddDocumentMetaData] returns an error that
    names an identifier that is indeed empty, and the world (so the input
    document too) is exactly as before the call. *)
Theorem AddDocumentMetaData_missing_field
    (d : Document) (instanceID entityName entityID : string) (w : World) :
  instanceID = EmptyString ∨ entityName = EmptyString ∨ entityID = EmptyString →
  ∃ field : string,
    AddDocumentMetaData d instanceID entityName entityID w
      = (Return (inl (errors_New (field +:+ " is required"))), w)
    ∧ ((field = "entityID" ∧ entityID = EmptyString)
       ∨ (field = "instanceID" ∧ instanceID = EmptyString)
       ∨ (field = "entityName" ∧ entityName = EmptyString)).
Proof.
  intros H. unfold AddDocumentMetaData.
  destruct (decide (entityID = EmptyString)) as [He|He].
  { exists "entityID". rewrite bool_decide_eq_true_2 by done. split; [done|]. by left. }
  rewrite (bool_decide_eq_false_2 _ He).
  destruct (decide (instanceID = EmptyString)) as [Hi|Hi].
  { exists "instanceID". rewrite bool_decide_eq_true_2 by done. split; [done|]. right; by left. }
  rewrite (bool_decide_eq_false_2 _ Hi).
  destruct (decide (entityName = EmptyString)) as [Hn|Hn].
  { exists "entityName". rewrite bool_decide_eq_true_2 by done. split; [done|]. right; by right. }
  by destruct H as [?|[?|?]].
Qed.

Lemma AddDocumentMetaData_stamps
    (l : addr) (instanceID entityName entityID : string) (w : World) :
  instanceID ≠ EmptyString → entityName ≠ EmptyString → entityID ≠ EmptyString →
  AddDocumentMetaData (Some l) instanceID entityName entityID w
    = (Return (inr (Some l)), stampedWorld l instanceID entityName entityID w).
Proof.
  intros Hi Hn He. unfold AddDocumentMetaData.
  rewrite !bool_decide_eq_false_2 by done.
  unfold stampedWorld, stamped, mbind, Go_bind, mret, Go_ret, store. cbn.
  by rewrite !lookup_total_insert_eq, !insert_insert_eq.
Qed.

(** Writing the first field into the nil map panics. *)
Lemma AddDocumentMetaData_nil (instanceID entityName entityID : string) (w : World) :
  instanceID ≠ EmptyString → entityName ≠ EmptyString → entityID ≠ EmptyString →
  AddDocumentMetaData None instanceID entityName entityID w
    = (Panic "assignment to entry in nil map", w).
Proof.
  intros Hi Hn He. unfold AddDocumentMetaData.
  by rewrite !bool_decide_eq_false_2 by done.
Qed.

Lemma stamped_lookup (instanceID entityName entityID : string) (m : DocMap) (k : string) :
  stamped instanceID entityName entityID m !! k =
    if bool_decide (k = "entity_name") then Some (VString entityName)
    else if bool_decide (k = "instance_id") then Some (VString instanceID)
    else if bool_decide (k = "id") then Some (VString entityID)
    else m !! k.
Proof.
  unfold stamped. rewrite !lookup_insert.
  repeat (case_decide; case_bool_decide; subst; try done).
Qed.

End Stamping.

(* ===================================================================== *)
(** ** One request, and the fan-out pattern *)
(* ===================================================================== *)

Section FanOut.
Context `{env : Env}.


Lemma requestError_fails (r : result (Response Bytes)) :
  fails r = true → ∃ err, requestError r = Some err.
Proof. destruct r as [e|resp]; cbn; [eauto|]. intros ->. eauto. Qed.

Lemma requestError_ok (r : result (Response Bytes)) :
  fails r = false → requestError r = None.
Proof. destruct r as [e|resp]; cbn; [done|]. by intros ->. Qed.

Lemma request_run (client : Client) (req : Request Bytes) (w : World) :
  request client req w
  = (Return (Do req (clusters w client)).1, sent client req (Do req (clusters w client)).2 w).
Proof. unfold request, sent. by destruct (Do req (clusters w client)). Qed.

Lemma executeRequest_run (client : Client) (req : Request Bytes) (w : World) :
  executeRequest client req w
  = (Return (requestError (Do req (clusters w client)).1),
     sent client req (Do req (clusters w client)).2 w).
Proof.
  unfold executeRequest, mbind, Go_bind. rewrite request_run.
  destruct (Do req (clusters w client)) as [[err|resp] c']; cbn; [done|].
  by destruct (IsError resp).
Qed.

Lemma executeReadRequest_run (client : Client) (req : Request Bytes) (w : World) :
  executeReadRequest client req w
  = (Return (match (Do req (clusters w client)).1 with
             | inl err => inl (Errorf_v "error executing request: " err)
             | inr resp => inr resp
             end),
     sent client req (Do req (clusters w client)).2 w).
Proof.
  unfold executeReadRequest, mbind, Go_bind. rewrite request_run.
  by destruct (Do req (clusters w client)) as [[err|resp] c'].
Qed.


Ltac run_fanOut :=
  unfold fanOut, mbind, Go_bind, mret, Go_ret;
  rewrite executeRequest_run;
  match goal with |- context [requestError ?r] => destruct (requestError r) end;
  [done|];
  match goal with |- context [secondaryClient ?os] => destruct (secondaryClient os) end;
  [|done];
  rewrite executeRequest_run;
  match goal with |- context [requestError ?r] => destruct (requestError r) end;
  done.

Lemma DeleteDocument_fanOut (os : OpenSearch)
    (instanceID indexName entityName entityID : string) (w : World) :
  DeleteDocument os instanceID indexName entityName entityID w
  = fanOut os (DeleteRequest indexName (GenerateDocumentID instanceID entityName entityID)) w.
Proof. unfold DeleteDocument, deleteDocument. run_fanOut. Qed.

Lemma DeleteIndex_fanOut (os : OpenSearch) (indexName : string) (w : World) :
  DeleteIndex os indexName w = fanOut os (IndicesDeleteRequest indexName) w.
Proof. unfold DeleteIndex, deleteIndex. run_fanOut. Qed.


Lemma PutDocument_run (os : OpenSearch) (instanceID indexName entityName entityID : string)
    (l : addr) (opts : list IndexOption) (w : World) :
  instanceID ≠ EmptyString → entityName ≠ EmptyString → entityID ≠ EmptyString →
  PutDocument os instanceID indexName entityName entityID (Some l) opts w
  = let w0 := stampedWorld l instanceID entityName entityID w in
    match json_Marshal (VObject (map_to_list (stamped instanceID entityName entityID (heap w !!! l)))) with
    | inl err => (Return (Some (Errorf_v "failed to marshal document " err)), w0)
    | inr docByte =>
        fanOut os (IndexRequest indexName (GenerateDocumentID instanceID entityName entityID)
                                docByte (refreshOf opts)) w0
    end.
Proof.
  intros Hi Hn He. unfold PutDocument.
  unfold mbind at 1. unfold Go_bind at 1.
  rewrite AddDocumentMetaData_stamps by done.
  unfold mbind at 1. unfold Go_bind at 1. unfold load. cbn [deref heap stampedWorld Document_value].
  rewrite lookup_total_insert_eq.
  destruct (json_Marshal _) as [err|docByte]; [done|].
  cbn zeta. unfold putDocument, refreshOf. run_fanOut.
Qed.

Lemma fanOut_heap (os : OpenSearch) (req : Request Bytes) (w : World) :
  heap (fanOut os req w).2 = heap w.
Proof.
  unfold fanOut. destruct (requestError _); [done|].
  destruct (secondaryClient os); [|done]. by destruct (requestError _).
Qed.

End FanOut.

Section FanOutContract.
Context `{env : Env}.


Lemma tagged_Errorf_v (tag : string) (err : error) :
  tagged tag (Errorf_v (tag +:+ " client: ") err).
Proof.
  by exists (Error err).
Qed.

Lemma fanOut_meets_contract (os : OpenSearch) (req : Request Bytes) (w0 : World) :
  fanOut_contract os req w0 (fanOut os req w0).
Proof.
  unfold fanOut_contract, fanOut. cbn zeta.
  set (prim := primaryClient os).
  set (r1 := Do req (clusters w0 prim)).
  split; [|split].
  - destruct (requestError r1.1); [by exists []|].
    destruct (secondaryClient os) as [sc|]; [|by exists []].
    exists [(sc, req)].
    destruct (requestError _); cbn; by rewrite <- app_assoc.
  - intros Hf. destruct (requestError_fails _ Hf) as [err ->].
    exists (Errorf_v "primary client: " err). split; [done|].
    split; [apply (tagged_Errorf_v "primary")|]. split; [done|].
    intros c Hc. cbn. by rewrite fn_lookup_insert_ne.
  - intros Hok sc Hsc Hf. rewrite (requestError_ok _ Hok), Hsc.
    destruct (requestError_fails _ Hf) as [err ->].
    exists (Errorf_v "secondary client: " err). split; [done|].
    split; [apply (tagged_Errorf_v "secondary")|]. split.
    + cbn. by rewrite <- app_assoc.
    + intros Hne. cbn. rewrite fn_lookup_insert_ne by done. by rewrite fn_lookup_insert.
Qed.

(** C2: [PutDocument] (once the document is stamped and serialized, which
    is when it reaches the clusters), [DeleteDocument] and [DeleteIndex]
    all meet [fanOut_contract]: primary first; a failed primary step is
    reported with the primary tag and nothing is sent to the secondary; a
    failed secondary step is reported with the secondary tag and the
    primary keeps the effect of its step. *)
Theorem fan_out_primary_first (os : OpenSearch) :
  (∀ (w : World) (instanceID indexName entityName entityID : string) (l : addr)
     (opts : list IndexOption) (docByte : Bytes),
     instanceID ≠ EmptyString → entityName ≠ EmptyString → entityID ≠ EmptyString →
     json_Marshal (VObject (map_to_list (stamped instanceID entityName entityID (heap w !!! l))))
       = inr docByte →
     fanOut_contract os
       (IndexRequest indexName (GenerateDocumentID instanceID entityName entityID)
                     docByte (refreshOf opts))
       (stampedWorld l instanceID entityName entityID w)
       (PutDocument os instanceID indexName entityName entityID (Some l) opts w))
  ∧ (∀ (w : World) (instanceID indexName entityName entityID : string),
       fanOut_contract os
         (DeleteRequest indexName (GenerateDocumentID instanceID entityName entityID)) w
         (DeleteDocument os instanceID indexName entityName entityID w))
  ∧ (∀ (w : World) (indexName : string),
       fanOut_contract os (IndicesDeleteRequest indexName) w (DeleteIndex os indexName w)).
Proof.
  split; [|split].
  - intros w instanceID indexName entityName entityID l opts docByte Hi Hn He Hm.
    rewrite PutDocument_run by done. cbn zeta. rewrite Hm.
    apply fanOut_meets_contract.
  - intros. rewrite DeleteDocument_fanOut. apply fanOut_meets_contract.
  - intros. rewrite DeleteIndex_fanOut. apply fanOut_meets_contract.
Qed.

End FanOutContract.

(* ===================================================================== *)
(** ** Comparing documents *)
(* ===================================================================== *)

Section Compare.
Context `{env : Env}.


Lemma native_eq_comparable (v1 v2 : Value) :
  comparable v1 = true → is_Some (native_eq v1 v2).
Proof. destruct v1, v2; cbn; eauto; discriminate. Qed.


Lemma compareEntries_true (entries : list (string * Value)) (doc2 : DocMap) :
  compareEntries entries doc2 = Return true
  ↔ ∀ key value1, (key, value1) ∈ entries →
      ∃ value2, doc2 !! key = Some value2 ∧ native_eq value1 value2 = Some true.
Proof.
  induction entries as [|[k v] rest IH]; cbn.
  - split; [|done]. intros _ key value1 Hin. by apply elem_of_nil in Hin.
  - destruct (doc2 !! k) as [v2|] eqn:Hk.
    + destruct (native_eq v v2) as [[|]|] eqn:Hv.
      * rewrite IH. split.
        -- intros H key value1 Hin. apply elem_of_cons in Hin as [[= -> ->]|Hin]; eauto.
        -- intros H key value1 Hin. apply H. by right.
      * split; [done|]. intros H.
        destruct (H k v) as (v2' & Hk' & Hv'); [by left|]. congruence.
      * split; [done|]. intros H.
        destruct (H k v) as (v2' & Hk' & Hv'); [by left|]. congruence.
    + split; [done|]. intros H.
      destruct (H k v) as (v2' & Hk' & _); [by left|]. congruence.
Qed.

Lemma compareEntries_total (entries : list (string * Value)) (doc2 : DocMap) :
  (∀ key value1, (key, value1) ∈ entries → comparable value1 = true) →
  ∃ b, compareEntries entries doc2 = Return b.
Proof.
  induction entries as [|[k v] rest IH]; cbn; intros Hc; [eauto|].
  destruct (doc2 !! k) as [v2|]; [|eauto].
  destruct (native_eq_comparable v v2) as [[|] ->]; [apply (Hc k); by left| |eauto].
  apply IH. intros key value1 Hin. apply (Hc key). by right.
Qed.

Hypothesis rangeOrder_perm : ∀ m : DocMap, rangeOrder m ≡ₚ map_to_list m.

Lemma elem_of_rangeOrder (m : DocMap) (key : string) (v : Value) :
  (key, v) ∈ rangeOrder m ↔ m !! key = Some v.
Proof. rewrite (rangeOrder_perm m). apply elem_of_map_to_list. Qed.

(** In whatever order [range] goes, the comparison answers true exactly
    on field-by-field equal documents. *)
Lemma compareMaps_true (doc1 doc2 : DocMap) :
  compareMaps doc1 doc2 = Return true ↔ fieldwise_equal doc1 doc2.
Proof.
  unfold compareMaps, fieldwise_equal. case_bool_decide as Hs; cbn.
  - rewrite compareEntries_true. split.
    + intros H. split; [done|]. intros key value1 Hk. apply H. by apply elem_of_rangeOrder.
    + intros [_ H] key value1 Hin. apply H. by apply elem_of_rangeOrder.
  - split; [done|]. by intros [? _].
Qed.

(** On a document whose values are all comparable the comparison always
    returns, and it returns false exactly when the two differ. *)
Lemma compareMaps_comparable (doc1 doc2 : DocMap) :
  (∀ key value1, doc1 !! key = Some value1 → comparable value1 = true) →
  ¬ fieldwise_equal doc1 doc2 → compareMaps doc1 doc2 = Return false.
Proof.
  intros Hc Hne.
  assert (∃ b, compareMaps doc1 doc2 = Return b) as [[|] Hb].
  { unfold compareMaps. case_bool_decide; cbn; [|eauto].
    apply compareEntries_total. intros key value1 Hin. apply (Hc key).
    by apply elem_of_rangeOrder. }
  - by apply compareMaps_true in Hb.
  - done.
Qed.

Lemma compareMaps_uncomparable (key : string) (v1 v2 : Value) :
  native_eq v1 v2 = None →
  compareMaps {[ key := v1 ]} {[ key := v2 ]} = Panic "comparing uncomparable type".
Proof.
  intros Hv. unfold compareMaps.
  rewrite bool_decide_eq_true_2 by by rewrite !map_size_singleton.
  cbn. assert (rangeOrder ({[ key := v1 ]} : DocMap) = [(key, v1)]) as ->.
  { apply Permutation_singleton_r. rewrite rangeOrder_perm. by rewrite map_to_list_singleton. }
  cbn. by rewrite lookup_singleton_eq, Hv.
Qed.

(** C7 (the code at the failing input): two documents that hold the same
    single field, with the same nested object or the same list as its
    value, are not answered by [compareDocuments] at all: it panics while
    comparing the two values, in whatever order [range] goes. *)
Theorem compareDocuments_uncomparable_panics
    (doc1 doc2 : Document) (w : World) (key : string) (v : Value) :
  deref (heap w) doc1 = {[ key := v ]} →
  deref (heap w) doc2 = {[ key := v ]} →
  comparable v = false →
  compareDocuments doc1 doc2 w = (Panic "comparing uncomparable type", w).
Proof.
  intros H1 H2 Hv. unfold compareDocuments. rewrite H1, H2.
  rewrite compareMaps_uncomparable; [done|]. by destruct v.
Qed.

End Compare.

(* ===================================================================== *)
(** ** Reading a document *)
(* ===================================================================== *)

Section Find.
Context `{env : Env}.

Lemma decodeResponse_not_found {T} (decode : Bytes → result T) (resp : Response Bytes) :
  StatusCode resp = StatusNotFound → decodeResponse decode resp = inl ErrDocumentNotFound.
Proof. intros H. unfold decodeResponse, IsError. by rewrite H. Qed.

Lemma decodeResponse_ok {T} (decode : Bytes → result T) (resp : Response Bytes) :
  IsError resp = false → decodeResponse decode resp = decode (Body resp).
Proof. intros H. unfold decodeResponse. by rewrite H. Qed.


Lemma findDocument_run (client : Client) (indexName documentID : string) (w : World) :
  findDocument client indexName documentID w
  = let req := GetRequest indexName documentID in
    let r := Do req (clusters w client) in
    let w1 := sent client req r.2 w in
    match r.1 with
    | inl err => (Return (inl (Errorf_v "error executing request: " err)), w1)
    | inr resp =>
        match decodeResponse json_Decode_source resp with
        | inl err => (Return (inl err), w1)
        | inr None => (Return (inr None), w1)
        | inr (Some m) => (Return (inr (Some (fresh (dom (heap w1))))), allocated m w1)
        end
    end.
Proof.
  unfold findDocument, mbind, Go_bind. rewrite executeReadRequest_run. cbn zeta.
  destruct (Do _ _) as [[err|resp] c']; cbn; [done|].
  by destruct (decodeResponse json_Decode_source resp) as [err|[m|]].
Qed.

Lemma FindDocument_run (os : OpenSearch) (instanceID indexName entityName entityID : string)
    (w : World) :
  FindDocument os instanceID indexName entityName entityID w
  = let documentID := GenerateDocumentID instanceID entityName entityID in
    match findDocument (primaryClient os) indexName documentID w with
    | (Panic msg, w1) => (Panic msg, w1)
    | (Return (inl err), w1) => (Return (inl (Errorf_w "primary client: " err)), w1)
    | (Return (inr pryDoc), w1) =>
        match secondaryClient os with
        | None => (Return (inr pryDoc), w1)
        | Some sc =>
            match findDocument sc indexName documentID w1 with
            | (Panic msg, w2) => (Panic msg, w2)
            | (Return (inl err), w2) => (Return (inl (Errorf_w "secondary client: " err)), w2)
            | (Return (inr secDoc), w2) =>
                match compareMaps (deref (heap w2) pryDoc) (deref (heap w2) secDoc) with
                | Panic msg => (Panic msg, w2)
                | Return false =>
                    (Return (inl (Errorf_w ("documents mismatch for id " +:+ strconv_Quote entityID +:+ ": ")
                                           ErrDocumentMismatch)), w2)
                | Return true => (Return (inr pryDoc), w2)
                end
            end
        end
    end.
Proof.
  unfold FindDocument, mbind, Go_bind, mret, Go_ret, compareDocuments. cbn zeta.
  destruct (findDocument (primaryClient os) _ _ w) as [[[err|pryDoc]|msg] w1]; [done| |done].
  destruct (secondaryClient os) as [sc|]; [|done].
  destruct (findDocument sc _ _ w1) as [[[err|secDoc]|msg] w2]; [done| |done].
  by destruct (compareMaps _ _) as [[|]|].
Qed.

(** C6: when the primary answers the lookup with 404, [FindDocument] returns an
    error that is [ErrDocumentNotFound] under [errors.Is] and carries the
    primary tag; the lookup on the primary is the only request sent, and
    every other cluster, a configured secondary included, is left as it
    was. *)
Theorem FindDocument_primary_not_found
    (os : OpenSearch) (instanceID indexName entityName entityID : string) (w : World)
    (resp : Response Bytes) (c' : Cluster) :
  Do (GetRequest indexName (GenerateDocumentID instanceID entityName entityID))
     (clusters w (primaryClient os)) = (inr resp, c') →
  StatusCode resp = StatusNotFound →
  ∃ e w',
    FindDocument os instanceID indexName entityName entityID w = (Return (inl e), w')
    ∧ errors_Is e ErrDocumentNotFound = true
    ∧ tagged "primary" e
    ∧ trace w' = (trace w ++ [(primaryClient os,
                   GetRequest indexName (GenerateDocumentID instanceID entityName entityID))])%list
    ∧ (∀ c, c ≠ primaryClient os → clusters w' c = clusters w c)
    ∧ heap w' = heap w.
Proof.
  intros HDo H404. eexists _, _. rewrite FindDocument_run. cbn zeta.
  rewrite findDocument_run. cbn zeta. rewrite HDo. cbn [fst snd].
  rewrite decodeResponse_not_found by done.
  split; [reflexivity|]. split; [done|]. split; [by exists "document not found"|].
  split; [done|]. split; [|done].
  intros c Hc. cbn. by rewrite fn_lookup_insert_ne.
Qed.

(** C5, as the code has it: when the primary lookup returns a document and
    the secondary answers its lookup with 404, [FindDocument] returns no
    document and the error made of [ErrDocumentNotFound] with the
    secondary tag: it is [ErrDocumentNotFound] under [errors.Is], and it
    is not [ErrDocumentMismatch]. *)
Theorem FindDocument_secondary_not_found
    (os : OpenSearch) (sc : Client) (instanceID indexName entityName entityID : string)
    (w w1 : World) (pryDoc : Document) (resp : Response Bytes) (c' : Cluster) :
  secondaryClient os = Some sc →
  findDocument (primaryClient os) indexName
    (GenerateDocumentID instanceID entityName entityID) w = (Return (inr pryDoc), w1) →
  Do (GetRequest indexName (GenerateDocumentID instanceID entityName entityID))
     (clusters w1 sc) = (inr resp, c') →
  StatusCode resp = StatusNotFound →
  ∃ e w2,
    FindDocument os instanceID indexName entityName entityID w = (Return (inl e), w2)
    ∧ e = Errorf_w "secondary client: " ErrDocumentNotFound
    ∧ tagged "secondary" e
    ∧ errors_Is e ErrDocumentNotFound = true
    ∧ errors_Is e ErrDocumentMismatch = false.
Proof.
  intros Hsc Hpry HDo H404. eexists _, _. rewrite FindDocument_run. cbn zeta.
  rewrite Hpry, Hsc. rewrite findDocument_run. cbn zeta. rewrite HDo. cbn [fst snd].
  rewrite decodeResponse_not_found by done.
  split; [reflexivity|]. split; [done|]. split; [by exists "document not found"|]. done.
Qed.

(** When both lookups return a document and the comparison answers false,
    the caller gets [ErrDocumentMismatch] and no document. *)
Lemma FindDocument_reports_mismatch
    (os : OpenSearch) (sc : Client) (instanceID indexName entityName entityID : string)
    (w w1 w2 : World) (pryDoc secDoc : Document) :
  secondaryClient os = Some sc →
  findDocument (primaryClient os) indexName
    (GenerateDocumentID instanceID entityName entityID) w = (Return (inr pryDoc), w1) →
  findDocument sc indexName
    (GenerateDocumentID instanceID entityName entityID) w1 = (Return (inr secDoc), w2) →
  compareMaps (deref (heap w2) pryDoc) (deref (heap w2) secDoc) = Return false →
  ∃ e, FindDocument os instanceID indexName entityName entityID w = (Return (inl e), w2)
       ∧ errors_Is e ErrDocumentMismatch = true.
Proof.
  intros Hsc Hpry Hsec Hcmp. eexists. rewrite FindDocument_run. cbn zeta.
  rewrite Hpry, Hsc, Hsec, Hcmp. split; [reflexivity|done].
Qed.

(** C1 (the code at the failing input): both lookups return a document, each
    document has one field, the same in both, whose value is a list, and
    the two lists may well differ; [FindDocument] does not return
    [ErrDocumentMismatch], nor anything else: it panics in the
    comparison. *)
Theorem FindDocument_uncomparable_fields_panic
    (os : OpenSearch) (sc : Client) (instanceID indexName entityName entityID : string)
    (w w1 w2 : World) (pryDoc secDoc : Document) (key : string) (items1 items2 : list Value) :
  (∀ m : DocMap, rangeOrder m ≡ₚ map_to_list m) →
  secondaryClient os = Some sc →
  findDocument (primaryClient os) indexName
    (GenerateDocumentID instanceID entityName entityID) w = (Return (inr pryDoc), w1) →
  findDocument sc indexName
    (GenerateDocumentID instanceID entityName entityID) w1 = (Return (inr secDoc), w2) →
  deref (heap w2) pryDoc = {[ key := VList items1 ]} →
  deref (heap w2) secDoc = {[ key := VList items2 ]} →
  FindDocument os instanceID indexName entityName entityID w
  = (Panic "comparing uncomparable type", w2).
Proof.
  intros Hperm Hsc Hpry Hsec H1 H2. rewrite FindDocument_run. cbn zeta.
  rewrite Hpry, Hsc, Hsec, H1, H2.
  by rewrite (compareMaps_uncomparable Hperm).
Qed.

(** So on documents that hold comparable values only, two lookups that
    disagree field by field always end in [ErrDocumentMismatch]. *)
Lemma FindDocument_mismatch_comparable
    (os : OpenSearch) (sc : Client) (instanceID indexName entityName entityID : string)
    (w w1 w2 : World) (pryDoc secDoc : Document) :
  (∀ m : DocMap, rangeOrder m ≡ₚ map_to_list m) →
  secondaryClient os = Some sc →
  findDocument (primaryClient os) indexName
    (GenerateDocumentID instanceID entityName entityID) w = (Return (inr pryDoc), w1) →
  findDocument sc indexName
    (GenerateDocumentID instanceID entityName entityID) w1 = (Return (inr secDoc), w2) →
  (∀ key value1, deref (heap w2) pryDoc !! key = Some value1 → comparable value1 = true) →
  ¬ fieldwise_equal (deref (heap w2) pryDoc) (deref (heap w2) secDoc) →
  ∃ e, FindDocument os instanceID indexName entityName entityID w = (Return (inl e), w2)
       ∧ errors_Is e ErrDocumentMismatch = true.
Proof.
  intros Hperm Hsc Hpry Hsec Hc Hne.
  eapply FindDocument_reports_mismatch; eauto using compareMaps_comparable.
Qed.

End Find.

(* ===================================================================== *)
(** ** Writing, then reading *)
(* ===================================================================== *)

Section RoundTrip.
Context `{env : Env}.

(** C10: with three non-empty identifiers, [AddDocumentMetaData] on the map at
    [l] returns the reference [l] itself, and the only change in the world
    is that map: it now has [id], [instance_id] and [entity_name] set to
    the identifiers, whatever it held there before.  [PutDocument] leaves
    the heap in that very state, however the cluster steps end: the
    caller's own document has been written to. *)
Theorem AddDocumentMetaData_in_place
    (l : addr) (instanceID entityName entityID : string) (w : World) :
  instanceID ≠ EmptyString → entityName ≠ EmptyString → entityID ≠ EmptyString →
  ∃ w',
    AddDocumentMetaData (Some l) instanceID entityName entityID w = (Return (inr (Some l)), w')
    ∧ heap w' = <[l := <["entity_name" := VString entityName]>
                         (<["instance_id" := VString instanceID]>
                           (<["id" := VString entityID]> (heap w !!! l)))]> (heap w)
    ∧ clusters w' = clusters w ∧ trace w' = trace w
    ∧ ∀ (os : OpenSearch) (indexName : string) (opts : list IndexOption),
        heap (PutDocument os instanceID indexName entityName entityID (Some l) opts w).2 = heap w'.
Proof.
  intros Hi Hn He. exists (stampedWorld l instanceID entityName entityID w).
  split; [by apply AddDocumentMetaData_stamps|]. split; [done|]. split; [done|]. split; [done|].
  intros os indexName opts. rewrite PutDocument_run by done. cbn zeta.
  destruct (json_Marshal _); [done|]. by rewrite fanOut_heap.
Qed.



End RoundTrip.

(* ===================================================================== *)
(** ** Search *)
(* ===================================================================== *)

Section SearchFacts.
Context `{env : Env}.


Lemma allocAll_run (sources : list (option DocMap)) (w : World) :
  ∃ documents w',
    allocAll sources w = (Return documents, w')
    ∧ clusters w' = clusters w ∧ trace w' = trace w
    ∧ heap w ⊆ heap w'
    ∧ Forall2 (fun (hit : option DocMap) (d : Document) => deref (heap w') d = default ∅ hit)
              sources documents.
Proof.
  revert w. induction sources as [|[m|] rest IH]; intros w; cbn.
  - by eexists _, _.
  - unfold mbind, Go_bind, alloc. cbn zeta beta iota.
    destruct (IH (allocated m w)) as (ds & w' & Hrun & Hc & Ht & Hh & Hall).
    unfold allocated in Hrun. rewrite Hrun.
    eexists _, _. split; [reflexivity|]. split; [done|]. split; [done|].
    assert (heap w !! fresh (dom (heap w)) = None) as Hfresh.
    { apply not_elem_of_dom, is_fresh. }
    split.
    + etrans; [|exact Hh]. by apply insert_subseteq.
    + constructor; [|done]. cbn.
      rewrite (lookup_total_correct (heap w') _ m); [done|].
      eapply lookup_weaken; [|exact Hh]. cbn. by rewrite lookup_insert_eq.
  - unfold mbind, Go_bind.
    destruct (IH w) as (ds & w' & -> & Hc & Ht & Hh & Hall).
    eexists _, _. split; [reflexivity|]. split; [done|]. split; [done|]. split; [done|].
    by constructor.
Qed.

Lemma Search_run (os : OpenSearch) (instanceID : string) (query : Query) (w : World) :
  Search os instanceID query w
  = match json_Marshal (constructSearchQuery instanceID query) with
    | inl err => (Return (inl (Errorf_v "failed to marshal search query: " err)), w)
    | inr body =>
        let r := Do (SearchRequest body) (clusters w (primaryClient os)) in
        let w1 := sent (primaryClient os) (SearchRequest body) r.2 w in
        match r.1 with
        | inl err => (Return (inl (Errorf_v "error executing request: " err)), w1)
        | inr resp => extractDocumentsFromSearchResponse resp w1
        end
    end.
Proof.
  unfold Search. cbn zeta. destruct (json_Marshal _) as [err|body]; [done|].
  unfold mbind, Go_bind. rewrite executeReadRequest_run.
  by destruct (Do _ _) as [[err|resp] c'].
Qed.

(** C4: the query [Search] builds carries the term filter on
    [instance_id] with the caller's instance, whatever the query text;
    the one request [Search] sends goes through the primary client, and
    every other cluster is left as it was; and with clusters that honour
    the filter, every document [Search] returns has that
    [instance_id]. *)
Theorem Search_primary_only_instance_filter
    (os : OpenSearch) (instanceID : string) (query : Query) (w : World) :
  instanceFilter (constructSearchQuery instanceID query) = Some (VString instanceID)
  ∧ match json_Marshal (constructSearchQuery instanceID query) with
    | inl _ => trace (Search os instanceID query w).2 = trace w
    | inr body =>
        trace (Search os instanceID query w).2
        = (trace w ++ [(primaryClient os, SearchRequest body)])%list
    end
  ∧ (∀ c, c ≠ primaryClient os → clusters (Search os instanceID query w).2 c = clusters w c)
  ∧ (honours_instance_filter →
     ∀ documents, (Search os instanceID query w).1 = Return (inr documents) →
       ∀ d, d ∈ documents →
         deref (heap (Search os instanceID query w).2) d !! "instance_id"
         = Some (VString instanceID)).
Proof.
  split; [done|]. rewrite Search_run.
  destruct (json_Marshal _) as [err|body] eqn:Hm.
  { split; [done|]. split; [done|]. intros _ documents [=]. }
  cbn zeta. destruct (Do _ _) as [[err|resp] c'] eqn:HDo; cbn [fst snd].
  { split; [done|]. split; [|intros _ documents [=]].
    intros c Hc. cbn. by rewrite fn_lookup_insert_ne. }
  unfold extractDocumentsFromSearchResponse.
  destruct (decodeResponse json_Decode_hits resp) as [err|hits] eqn:Hdec.
  { split; [done|]. split; [|intros _ documents [=]].
    intros c Hc. cbn. by rewrite fn_lookup_insert_ne. }
  unfold mbind, Go_bind.
  destruct (allocAll_run hits (sent (primaryClient os) (SearchRequest body) c' w))
    as (ds & w' & -> & Hc' & Ht & Hh & Hall).
  unfold mret, Go_ret. cbn [fst snd]. split; [by rewrite Ht|]. split.
  { intros c Hc. rewrite Hc'. cbn. by rewrite fn_lookup_insert_ne. }
  intros Hfilter documents [= <-] d Hd.
  assert (IsError resp = false) as Hok.
  { unfold decodeResponse in Hdec. destruct (IsError resp); [|done].
    by destruct (StatusCode resp =? StatusNotFound). }
  rewrite decodeResponse_ok in Hdec by done.
  pose proof (Hfilter _ _ _ _ _ _ _ Hm eq_refl HDo Hok Hdec) as Hhits.
  clear Hdec. revert Hhits Hd.
  induction Hall as [|hit d' hits' ds' Hd' Hall IH]; intros Hhits Hd.
  - by apply elem_of_nil in Hd.
  - destruct (Forall_cons_1 _ _ _ Hhits) as [(m & -> & Hm') Hhits'].
    apply elem_of_cons in Hd as [->|Hd]; [|by apply IH].
    by rewrite Hd'.
Qed.

End SearchFacts.


(* ===================================================================== *)
(** ** More on the key and on writing *)
(* ===================================================================== *)

Section MoreWrites.
Context `{env : Env}.

Lemma stamped_stamped (instanceID entityName entityID : string) (m : DocMap) :
  stamped instanceID entityName entityID (stamped instanceID entityName entityID m)
  = stamped instanceID entityName entityID m.
Proof.
  apply map_eq. intros k. rewrite !stamped_lookup.
  by repeat case_bool_decide.
Qed.

(** Stamping a document that already carries the metadata of the same
    identifiers changes nothing: a second call returns the same reference
    and leaves the world as the first call left it. *)
Theorem AddDocumentMetaData_twice
    (l : addr) (instanceID entityName entityID : string) (w : World) :
  instanceID ≠ EmptyString → entityName ≠ EmptyString → entityID ≠ EmptyString →
  ∃ w1,
    AddDocumentMetaData (Some l) instanceID entityName entityID w = (Return (inr (Some l)), w1)
    ∧ AddDocumentMetaData (Some l) instanceID entityName entityID w1 = (Return (inr (Some l)), w1).
Proof.
  intros Hi Hn He. eexists. split; [by apply AddDocumentMetaData_stamps|].
  rewrite AddDocumentMetaData_stamps by done. f_equal.
  unfold stampedWorld. cbn. f_equal.
  by rewrite lookup_total_insert_eq, insert_insert_eq, stamped_stamped.
Qed.

(** The first empty identifier in the order entityID, instanceID,
    entityName. *)
Lemma AddDocumentMetaData_rejects
    (d : Document) (instanceID entityName entityID : string) (w : World) :
  instanceID = EmptyString ∨ entityName = EmptyString ∨ entityID = EmptyString →
  ∃ field : string,
    AddDocumentMetaData d instanceID entityName entityID w
    = (Return (inl (errors_New (field +:+ " is required"))), w).
Proof.
  intros H. unfold AddDocumentMetaData.
  destruct (decide (entityID = EmptyString)) as [He|He].
  { exists "entityID". by rewrite bool_decide_eq_true_2. }
  rewrite (bool_decide_eq_false_2 _ He).
  destruct (decide (instanceID = EmptyString)) as [Hi|Hi].
  { exists "instanceID". by rewrite bool_decide_eq_true_2. }
  rewrite (bool_decide_eq_false_2 _ Hi).
  destruct (decide (entityName = EmptyString)) as [Hn|Hn].
  { exists "entityName". by rewrite bool_decide_eq_true_2. }
  by destruct H as [?|[?|?]].
Qed.

(** [PutDocument] with an empty identifier returns the error of the
    stamping under "missing document meta data" and leaves the world as
    it was: no request is sent and the document is not written to, nil or
    not. *)
Theorem PutDocument_missing_identifier
    (os : OpenSearch) (instanceID indexName entityName entityID : string)
    (document : Document) (opts : list IndexOption) (w : World) :
  instanceID = EmptyString ∨ entityName = EmptyString ∨ entityID = EmptyString →
  ∃ field : string,
    PutDocument os instanceID indexName entityName entityID document opts w
    = (Return (Some (errorString ("missing document meta data " +:+ field +:+ " is required"))), w).
Proof.
  intros H.
  destruct (AddDocumentMetaData_rejects document instanceID entityName entityID w H)
    as [field Hrun].
  exists field. unfold PutDocument, mbind, Go_bind. by rewrite Hrun.
Qed.

(** [PutDocument] on the nil document, with identifiers that pass the
    check, panics in the first write into the map; nothing has been sent
    by then. *)
Theorem PutDocument_nil_document_panics
    (os : OpenSearch) (instanceID indexName entityName entityID : string)
    (opts : list IndexOption) (w : World) :
  instanceID ≠ EmptyString → entityName ≠ EmptyString → entityID ≠ EmptyString →
  PutDocument os instanceID indexName entityName entityID None opts w
  = (Panic "assignment to entry in nil map", w).
Proof.
  intros Hi Hn He. unfold PutDocument, mbind, Go_bind.
  by rewrite AddDocumentMetaData_nil.
Qed.

(** When the stamped document cannot be serialized, [PutDocument] returns
    the error under "failed to marshal document" and sends nothing, but
    the caller's document keeps the three metadata fields it was given
    before the failure. *)
Theorem PutDocument_marshal_failure
    (os : OpenSearch) (instanceID indexName entityName entityID : string)
    (l : addr) (opts : list IndexOption) (w : World) (err : error) :
  instanceID ≠ EmptyString → entityName ≠ EmptyString → entityID ≠ EmptyString →
  json_Marshal (VObject (map_to_list (stamped instanceID entityName entityID (heap w !!! l))))
    = inl err →
  ∃ w',
    PutDocument os instanceID indexName entityName entityID (Some l) opts w
    = (Return (Some (errorString ("failed to marshal document " +:+ Error err))), w')
    ∧ trace w' = trace w ∧ clusters w' = clusters w
    ∧ heap w' = <[l := stamped instanceID entityName entityID (heap w !!! l)]> (heap w).
Proof.
  intros Hi Hn He Hm. eexists. rewrite PutDocument_run by done. cbn zeta.
  rewrite Hm. done.
Qed.

Lemma fanOut_success (os : OpenSearch) (req : Request Bytes) (w w' : World) :
  fanOut os req w = (Return None, w') →
  trace w' = (trace w ++ (primaryClient os, req)
                :: match secondaryClient os with Some sc => [(sc, req)] | None => [] end)%list
  ∧ heap w' = heap w
  ∧ fails (Do req (clusters w (primaryClient os))).1 = false
  ∧ ∀ sc, secondaryClient os = Some sc →
      fails (Do req (clusters (sent (primaryClient os) req
                                 (Do req (clusters w (primaryClient os))).2 w) sc)).1 = false.
Proof.
  unfold fanOut. cbn zeta.
  destruct (Do req (clusters w (primaryClient os))) as [r1 c1]. cbn [fst snd].
  destruct (requestError r1) as [e1|] eqn:H1; [done|].
  assert (fails r1 = false) as Hf1.
  { destruct r1 as [?|resp]; [done|]. cbn in *. by destruct (IsError resp). }
  destruct (secondaryClient os) as [sc|].
  - destruct (Do req (clusters (sent (primaryClient os) req c1 w) sc)) as [r2 c2] eqn:HDo2.
    cbn [fst snd]. destruct (requestError r2) as [e2|] eqn:H2; [done|].
    intros [= <-]. split; [cbn; by rewrite <- app_assoc|]. split; [done|]. split; [done|].
    intros sc' [= <-]. rewrite HDo2. cbn.
    destruct r2 as [?|resp]; [done|]. cbn in *. by destruct (IsError resp).
  - intros [= <-]. done.
Qed.

(** A [PutDocument] that returns nil was given a document that is not nil
    and three non-empty identifiers, and it has sent one and the same
    request (index, key, serialized stamped document, refresh flag) to
    the primary and then, when one is configured, to the secondary, each
    of which accepted it. *)
Theorem PutDocument_success_reaches_every_cluster
    (os : OpenSearch) (instanceID indexName entityName entityID : string)
    (document : Document) (opts : list IndexOption) (w w' : World) :
  PutDocument os instanceID indexName entityName entityID document opts w = (Return None, w') →
  ∃ (l : addr) (docByte : Bytes),
    document = Some l
    ∧ instanceID ≠ EmptyString ∧ entityName ≠ EmptyString ∧ entityID ≠ EmptyString
    ∧ json_Marshal (VObject (map_to_list (stamped instanceID entityName entityID (heap w !!! l))))
      = inr docByte
    ∧ let req := IndexRequest indexName (GenerateDocumentID instanceID entityName entityID)
                              docByte (refreshOf opts) in
      trace w' = (trace w ++ (primaryClient os, req)
                    :: match secondaryClient os with Some sc => [(sc, req)] | None => [] end)%list
      ∧ fails (Do req (clusters w (primaryClient os))).1 = false.
Proof.
  intros Hput.
  assert (¬ (instanceID = EmptyString ∨ entityName = EmptyString ∨ entityID = EmptyString))
    as Hids.
  { intros H.
    destruct (AddDocumentMetaData_rejects document instanceID entityName entityID w H)
      as [f Hf].
    unfold PutDocument, mbind, Go_bind in Hput. by rewrite Hf in Hput. }
  assert (instanceID ≠ EmptyString) as Hi by (intros ?; apply Hids; by left).
  assert (entityName ≠ EmptyString) as Hn by (intros ?; apply Hids; right; by left).
  assert (entityID ≠ EmptyString) as He by (intros ?; apply Hids; right; by right).
  destruct document as [l|].
  2: { unfold PutDocument, mbind, Go_bind in Hput.
       by rewrite AddDocumentMetaData_nil in Hput. }
  rewrite PutDocument_run in Hput by done. cbn zeta in Hput.
  destruct (json_Marshal _) as [err|docByte] eqn:Hm; [done|].
  apply fanOut_success in Hput as (Htrace & _ & Hok & _).
  exists l, docByte. by repeat split.
Qed.

(** A [DeleteDocument] or a [DeleteIndex] that returns nil has sent its
    request to the primary and then, when one is configured, to the
    secondary, and has left every document in memory alone. *)
Theorem Delete_success_reaches_every_cluster (os : OpenSearch) (w w' : World) :
  (∀ instanceID indexName entityName entityID : string,
     DeleteDocument os instanceID indexName entityName entityID w = (Return None, w') →
     let req := DeleteRequest indexName (GenerateDocumentID instanceID entityName entityID) in
     trace w' = (trace w ++ (primaryClient os, req)
                   :: match secondaryClient os with Some sc => [(sc, req)] | None => [] end)%list
     ∧ heap w' = heap w)
  ∧ (∀ indexName : string,
       DeleteIndex os indexName w = (Return None, w') →
       let req := IndicesDeleteRequest indexName in
       trace w' = (trace w ++ (primaryClient os, req)
                     :: match secondaryClient os with Some sc => [(sc, req)] | None => [] end)%list
       ∧ heap w' = heap w).
Proof.
  split.
  - intros instanceID indexName entityName entityID Hrun. rewrite DeleteDocument_fanOut in Hrun.
    apply fanOut_success in Hrun as (Htrace & Hheap & _). done.
  - intros indexName Hrun. rewrite DeleteIndex_fanOut in Hrun.
    apply fanOut_success in Hrun as (Htrace & Hheap & _). done.
Qed.

End MoreWrites.

(* ===================================================================== *)
(** ** More on reading *)
(* ===================================================================== *)

Section MoreReads.
Context `{env : Env}.

(** Whatever the status, an error response is never decoded; it is
    [ErrDocumentNotFound] exactly when the status is 404. *)
Theorem decodeResponse_error_status {T} (decode : Bytes → result T) (resp : Response Bytes) :
  IsError resp = true →
  ∃ e, decodeResponse decode resp = inl e
       ∧ (errors_Is e ErrDocumentNotFound = true ↔ StatusCode resp = StatusNotFound).
Proof.
  intros Herr. unfold decodeResponse. rewrite Herr.
  destruct (StatusCode resp =? StatusNotFound) eqn:Hs.
  - exists ErrDocumentNotFound. split; [done|]. split; [|done]. intros _. by apply Z.eqb_eq.
  - eexists. split; [done|]. split; [done|]. intros H. apply Z.eqb_neq in Hs. done.
Qed.

(** What one lookup leaves behind: one [GetRequest] through its client,
    every other cluster as it was, every map of the heap as it was. *)
Lemma findDocument_footprint (client : Client) (indexName documentID : string)
    (w w' : World) (r : outcome (result Document)) :
  findDocument client indexName documentID w = (r, w') →
  (∃ v, r = Return v)
  ∧ trace w' = (trace w ++ [(client, GetRequest indexName documentID)])%list
  ∧ (∀ c, c ≠ client → clusters w' c = clusters w c)
  ∧ heap w ⊆ heap w'.
Proof.
  rewrite findDocument_run. cbn zeta.
  destruct (Do _ _) as [[err|resp] c']; cbn [fst snd].
  { intros [= <- <-]. split; [eauto|]. split; [done|]. split; [|done].
    intros c Hc. cbn. by rewrite fn_lookup_insert_ne. }
  assert (∀ c, c ≠ client →
            (<[client := c']> (clusters w) : Client → Cluster) c = clusters w c) as Hother.
  { intros c Hc. by rewrite fn_lookup_insert_ne. }
  destruct (decodeResponse json_Decode_source resp) as [err|[m|]];
    intros [= <- <-]; (split; [eauto|]); (split; [done|]); (split; [done|]); [done| |done].
  cbn. apply insert_subseteq, not_elem_of_dom, is_fresh.
Qed.

(** [FindDocument] only reads, however it ends: every request it sends is
    the [GetRequest] for the index and the key of the identifiers, sent
    through a configured client, and every map that was in memory before
    the call is there unchanged after it. *)
Theorem FindDocument_only_reads
    (os : OpenSearch) (instanceID indexName entityName entityID : string)
    (w w' : World) (r : outcome (result Document)) :
  FindDocument os instanceID indexName entityName entityID w = (r, w') →
  heap w ⊆ heap w'
  ∧ ∃ later,
      trace w' = (trace w ++ later)%list
      ∧ Forall (fun sent_ : Client * Request Bytes =>
                  sent_.2 = GetRequest indexName (GenerateDocumentID instanceID entityName entityID)
                  ∧ (sent_.1 = primaryClient os ∨ secondaryClient os = Some sent_.1))
               later.
Proof.
  rewrite FindDocument_run. cbn zeta.
  destruct (findDocument (primaryClient os) _ _ w) as [r1 w1] eqn:H1.
  destruct (findDocument_footprint _ _ _ _ _ _ H1) as ([v1 ->] & Ht1 & _ & Hh1).
  assert (Forall (fun sent_ : Client * Request Bytes =>
                  sent_.2 = GetRequest indexName (GenerateDocumentID instanceID entityName entityID)
                  ∧ (sent_.1 = primaryClient os ∨ secondaryClient os = Some sent_.1))
                 [(primaryClient os,
                   GetRequest indexName (GenerateDocumentID instanceID entityName entityID))])
    as Hfirst.
  { repeat constructor. }
  destruct v1 as [err|pryDoc].
  { intros [= <- <-]. split; [done|]. eauto. }
  destruct (secondaryClient os) as [sc|] eqn:Hsc.
  2: { intros [= <- <-]. split; [done|]. eauto. }
  destruct (findDocument sc _ _ w1) as [r2 w2] eqn:H2.
  destruct (findDocument_footprint _ _ _ _ _ _ H2) as ([v2 ->] & Ht2 & _ & Hh2).
  assert (heap w ⊆ heap w2) as Hh by (by etrans).
  assert (∃ later,
      trace w2 = (trace w ++ later)%list
      ∧ Forall (fun sent_ : Client * Request Bytes =>
                  sent_.2 = GetRequest indexName (GenerateDocumentID instanceID entityName entityID)
                  ∧ (sent_.1 = primaryClient os ∨ Some sc = Some sent_.1))
               later) as Hlater.
  { eexists. rewrite Ht2, Ht1, <- app_assoc. split; [done|].
    constructor; [split; [done|by left]|].
    constructor; [split; [done|by right]|]. constructor. }
  destruct v2 as [err|secDoc]; [by intros [= <- <-]|].
  destruct (compareMaps _ _) as [[|]|]; by intros [= <- <-].
Qed.

(** With no secondary, [FindDocument] never panics and never compares: it
    sends the one lookup to the primary, and a document it returns is the
    one that lookup returned. *)
Theorem FindDocument_single_cluster
    (os : OpenSearch) (instanceID indexName entityName entityID : string)
    (w w' : World) (r : outcome (result Document)) :
  secondaryClient os = None →
  FindDocument os instanceID indexName entityName entityID w = (r, w') →
  (∃ v, r = Return v)
  ∧ trace w' = (trace w ++ [(primaryClient os,
                  GetRequest indexName (GenerateDocumentID instanceID entityName entityID))])%list
  ∧ ∀ d, r = Return (inr d) →
      findDocument (primaryClient os) indexName
        (GenerateDocumentID instanceID entityName entityID) w = (Return (inr d), w').
Proof.
  intros Hsc. rewrite FindDocument_run. cbn zeta. rewrite Hsc.
  destruct (findDocument (primaryClient os) _ _ w) as [r1 w1] eqn:H1.
  destruct (findDocument_footprint _ _ _ _ _ _ H1) as ([v1 ->] & Ht1 & _ & _).
  destruct v1 as [err|pryDoc]; intros [= <- <-]; (split; [eauto|]); (split; [done|]).
  - intros d [=].
  - by intros d [= <-].
Qed.

(** A document [FindDocument] returns with a secondary configured is the
    primary's, and it has been checked: both lookups returned a document
    and the two are equal field by field. *)
Theorem FindDocument_returns_verified_document
    (os : OpenSearch) (sc : Client) (instanceID indexName entityName entityID : string)
    (w w' : World) (d : Document) :
  (∀ m : DocMap, rangeOrder m ≡ₚ map_to_list m) →
  secondaryClient os = Some sc →
  FindDocument os instanceID indexName entityName entityID w = (Return (inr d), w') →
  ∃ w1 secDoc,
    findDocument (primaryClient os) indexName
      (GenerateDocumentID instanceID entityName entityID) w = (Return (inr d), w1)
    ∧ findDocument sc indexName
        (GenerateDocumentID instanceID entityName entityID) w1 = (Return (inr secDoc), w')
    ∧ fieldwise_equal (deref (heap w') d) (deref (heap w') secDoc).
Proof.
  intros Hperm Hsc. rewrite FindDocument_run. cbn zeta. rewrite Hsc.
  destruct (findDocument (primaryClient os) _ _ w) as [[[err|pryDoc]|msg] w1]; [done| |done].
  destruct (findDocument sc _ _ w1) as [[[err|secDoc]|msg] w2] eqn:H2; [done| |done].
  destruct (compareMaps _ _) as [[|]|] eqn:Hcmp; [|done|done].
  intros [= <- <-]. exists w1, secDoc. split; [done|]. split; [exact H2|].
  by apply (compareMaps_true Hperm).
Qed.

(** [ErrDocumentMismatch] comes from the comparison only: when the decoder
    does not produce it, an error of [FindDocument] that is
    [ErrDocumentMismatch] means that a secondary is configured, both
    lookups returned a document and the comparison answered false. *)
Theorem FindDocument_mismatch_only_from_comparison
    (os : OpenSearch) (instanceID indexName entityName entityID : string)
    (w w' : World) (e : error) :
  (∀ b err, json_Decode_source b = inl err → errors_Is err ErrDocumentMismatch = false) →
  FindDocument os instanceID indexName entityName entityID w = (Return (inl e), w') →
  errors_Is e ErrDocumentMismatch = true →
  ∃ sc w1 pryDoc secDoc,
    secondaryClient os = Some sc
    ∧ findDocument (primaryClient os) indexName
        (GenerateDocumentID instanceID entityName entityID) w = (Return (inr pryDoc), w1)
    ∧ findDocument sc indexName
        (GenerateDocumentID instanceID entityName entityID) w1 = (Return (inr secDoc), w')
    ∧ compareMaps (deref (heap w') pryDoc) (deref (heap w') secDoc) = Return false.
Proof.
  intros Hdec.
  assert (∀ client idx id w0 w0' err,
            findDocument client idx id w0 = (Return (inl err), w0') →
            errors_Is err ErrDocumentMismatch = false) as Hfind.
  { intros client idx id w0 w0' err. rewrite findDocument_run. cbn zeta.
    destruct (Do _ _) as [[err0|resp] c']; cbn [fst snd]; [by intros [= <- <-]|].
    unfold decodeResponse. destruct (IsError resp).
    - destruct (StatusCode resp =? StatusNotFound); by intros [= <- <-].
    - destruct (json_Decode_source (Body resp)) as [err0|[m|]] eqn:Hb; [|done..].
      intros [= <- <-]. by eapply Hdec. }
  rewrite FindDocument_run. cbn zeta.
  destruct (findDocument (primaryClient os) _ _ w) as [[[err|pryDoc]|msg] w1] eqn:H1; [| |done].
  { intros [= <- <-]. cbn. rewrite (Hfind _ _ _ _ _ _ H1). done. }
  destruct (secondaryClient os) as [sc|]; [|done].
  destruct (findDocument sc _ _ w1) as [[[err|secDoc]|msg] w2] eqn:H2; [| |done].
  { intros [= <- <-]. cbn. rewrite (Hfind _ _ _ _ _ _ H2). done. }
  destruct (compareMaps _ _) as [[|]|] eqn:Hcmp; [done| |done].
  intros [= <- <-] _. by exists sc, w1, pryDoc, secDoc.
Qed.

(** A failure of the primary that is not a 404 (no response at all, or any
    other error status) is reported with the primary tag, is not
    [ErrDocumentNotFound], and ends the call after that one request. *)
Theorem FindDocument_primary_backend_error
    (os : OpenSearch) (instanceID indexName entityName entityID : string) (w : World) :
  let req := GetRequest indexName (GenerateDocumentID instanceID entityName entityID) in
  let r := Do req (clusters w (primaryClient os)) in
  fails r.1 = true →
  (∀ resp, r.1 = inr resp → StatusCode resp ≠ StatusNotFound) →
  ∃ e,
    FindDocument os instanceID indexName entityName entityID w
    = (Return (inl e), sent (primaryClient os) req r.2 w)
    ∧ tagged "primary" e
    ∧ errors_Is e ErrDocumentNotFound = false.
Proof.
  intros req r Hfails Hnot. rewrite FindDocument_run. cbn zeta. rewrite findDocument_run.
  cbn zeta. fold req. fold r. destruct r.1 as [err|resp] eqn:Hr.
  - eexists. split; [reflexivity|]. split; [|done]. by eexists.
  - cbn in Hfails. unfold decodeResponse. rewrite Hfails.
    rewrite (proj2 (Z.eqb_neq _ _) (Hnot resp eq_refl)).
    eexists. split; [reflexivity|]. split; [|done]. by eexists.
Qed.

(** A good response whose body has no [_source] gives the nil document
    and no error: with no secondary, [FindDocument] returns just that. *)
Theorem FindDocument_no_source
    (os : OpenSearch) (instanceID indexName entityName entityID : string) (w : World)
    (resp : Response Bytes) (c' : Cluster) :
  secondaryClient os = None →
  Do (GetRequest indexName (GenerateDocumentID instanceID entityName entityID))
     (clusters w (primaryClient os)) = (inr resp, c') →
  IsError resp = false →
  json_Decode_source (Body resp) = inr None →
  (FindDocument os instanceID indexName entityName entityID w).1 = Return (inr None).
Proof.
  intros Hsc HDo Hok Hdec. rewrite FindDocument_run. cbn zeta. rewrite findDocument_run.
  cbn zeta. rewrite HDo. cbn [fst snd]. by rewrite decodeResponse_ok, Hdec, Hsc.
Qed.

End MoreReads.

(* ===================================================================== *)
(** ** More on search and on the comparison *)
(* ===================================================================== *)

Section MoreSearch.
Context `{env : Env}.


(** On an error status [Search] returns no document and decodes nothing:
    the error is [ErrDocumentNotFound] itself for a 404, with no tag, and
    the text of the response otherwise; the heap is as it was. *)
Theorem Search_error_status
    (os : OpenSearch) (instanceID : string) (query : Query) (w : World)
    (body : Bytes) (resp : Response Bytes) (c' : Cluster) :
  json_Marshal (constructSearchQuery instanceID query) = inr body →
  Do (SearchRequest body) (clusters w (primaryClient os)) = (inr resp, c') →
  IsError resp = true →
  Search os instanceID query w
  = (Return (inl (if StatusCode resp =? StatusNotFound then ErrDocumentNotFound
                  else errorString ("error in response: " +:+ Response_String resp))),
     sent (primaryClient os) (SearchRequest body) c' w).
Proof.
  intros Hm HDo Herr. rewrite Search_run, Hm. cbn zeta. rewrite HDo. cbn [fst snd].
  unfold extractDocumentsFromSearchResponse, decodeResponse. rewrite Herr.
  by destruct (StatusCode resp =? StatusNotFound).
Qed.




Hypothesis rangeOrder_perm : ∀ m : DocMap, rangeOrder m ≡ₚ map_to_list m.



End MoreSearch.

(* ===================================================================== *)
(** ** Construction and index administration *)
(* ===================================================================== *)

Section AdminFacts.
Context `{env : Env} {adm : AdminEnv env}.

Lemma applyOptions_secondaries (endpoints : list string) (os : OpenSearch) (clients : list Client) :
  Forall2 (fun endpoint client => NewClient endpoint = inr client) endpoints clients →
  applyOptions (WithSecondaryEndpoint <$> endpoints) os
  = inr (mkOpenSearch (primaryClient os)
           (match list.last clients with Some c => Some c | None => secondaryClient os end)).
Proof.
  intros H. revert os. induction H as [|e c es cs He Hall IH]; intros os; cbn.
  - by destruct os.
  - unfold WithSecondaryEndpoint at 1. rewrite He. rewrite IH.
    cbn [primaryClient secondaryClient].
    destruct cs as [|c' cs']; [done|]. rewrite last_cons_cons.
    destruct (list.last (c' :: cs')) eqn:Hl; [done|]. by apply last_None in Hl.
Qed.

(** The engine [NewOpenSearch] builds from addresses the client
    constructor accepts: its primary is the client of the first address,
    whatever the options; with no option it has no secondary, and with
    several [WithSecondaryEndpoint] options the last one is the
    secondary. *)
Theorem NewOpenSearch_secondary_endpoints
    (endpoint : string) (primary : Client) (endpoints : list string) (clients : list Client) :
  NewClient endpoint = inr primary →
  Forall2 (fun e c => NewClient e = inr c) endpoints clients →
  NewOpenSearch endpoint (WithSecondaryEndpoint <$> endpoints)
  = inr (mkOpenSearch primary (list.last clients)).
Proof.
  intros Hp Hall. unfold NewOpenSearch. rewrite Hp.
  rewrite (applyOptions_secondaries _ _ _ Hall). cbn. by destruct (list.last clients).
Qed.

(** An address the client constructor refuses, be it the primary's or one
    of a [WithSecondaryEndpoint] option, makes [NewOpenSearch] return
    that error and no engine. *)
Theorem NewOpenSearch_refused_endpoint
    (endpoint : string) (before after : list string) (bad : string) (err : error)
    (primary : Client) (clients : list Client) :
  (NewClient endpoint = inl err → NewOpenSearch endpoint (WithSecondaryEndpoint <$> before) = inl err)
  ∧ (NewClient endpoint = inr primary →
     Forall2 (fun e c => NewClient e = inr c) before clients →
     NewClient bad = inl err →
     NewOpenSearch endpoint (WithSecondaryEndpoint <$> (before ++ bad :: after)%list) = inl err).
Proof.
  split.
  - intros H. unfold NewOpenSearch. by rewrite H.
  - intros Hp Hall Hbad. unfold NewOpenSearch. rewrite Hp.
    generalize (mkOpenSearch primary None). induction Hall as [|e c es cs He Hall IH]; intros os; cbn.
    + unfold WithSecondaryEndpoint at 1. by rewrite Hbad.
    + unfold WithSecondaryEndpoint at 1. rewrite He. apply IH.
Qed.

Lemma requestIndices_run (client : Client) (req : IndicesRequest Bytes) (aw : AdminWorld) :
  requestIndices client req aw
  = ((DoIndices req (clusters (docWorld aw) client)).1,
     sentIndices client req (DoIndices req (clusters (docWorld aw) client)).2 aw).
Proof. unfold requestIndices, sentIndices. by destruct (DoIndices _ _). Qed.

Lemma indexExists_run (client : Client) (indexName : string) (aw : AdminWorld) :
  indexExists client indexName aw
  = let req := IndicesExistsRequest [indexName] in
    let r := DoIndices req (clusters (docWorld aw) client) in
    (match r.1 with
     | inl err => inl (Errorf_v "error executing request: " err)
     | inr resp =>
         if StatusCode resp =? StatusOK then inr true
         else if StatusCode resp =? StatusNotFound then inr false
         else inl (errorString ("unexpected response status checking index exists: "
                                +:+ pretty.pretty (StatusCode resp)))
     end, sentIndices client req r.2 aw).
Proof.
  unfold indexExists, executeReadIndicesRequest, mbind, Adm_bind. rewrite requestIndices_run.
  cbn zeta. destruct (DoIndices _ _) as [[err|resp] c']; cbn; [done|].
  destruct (StatusCode resp =? StatusOK); [done|].
  by destruct (StatusCode resp =? StatusNotFound).
Qed.

Lemma createIndex_run (client : Client) (indexName : string) (body : Bytes) (aw : AdminWorld) :
  createIndex client indexName body aw
  = let req := IndicesCreateRequest indexName body in
    let r := DoIndices req (clusters (docWorld aw) client) in
    (requestError r.1, sentIndices client req r.2 aw).
Proof.
  unfold createIndex, executeIndicesRequest, mbind, Adm_bind. rewrite requestIndices_run.
  cbn zeta. destruct (DoIndices _ _) as [[err|resp] c']; cbn; [done|].
  by destruct (IsError resp).
Qed.

(** When the cluster answers the existence check with 200, [ensureIndex]
    returns nil after that one request: an index that exists is never
    created again, and its configuration is not sent. *)
Theorem ensureIndex_existing_index
    (client : Client) (indexName : string) (body : Bytes) (aw : AdminWorld)
    (resp : Response Bytes) (c' : Cluster) :
  DoIndices (IndicesExistsRequest [indexName]) (clusters (docWorld aw) client) = (inr resp, c') →
  StatusCode resp = StatusOK →
  ensureIndex client indexName body aw
  = (None, sentIndices client (IndicesExistsRequest [indexName]) c' aw).
Proof.
  intros HDo Hs. unfold ensureIndex, mbind, Adm_bind. rewrite indexExists_run. cbn zeta.
  rewrite HDo. cbn [fst snd]. by rewrite Hs.
Qed.

(** When the cluster answers the existence check with 404, [ensureIndex]
    sends the creation with the given body through the same client next,
    and returns nil exactly when that request goes through; a failure is
    reported under "failed to create index". *)
Theorem ensureIndex_absent_index
    (client : Client) (indexName : string) (body : Bytes) (aw : AdminWorld)
    (resp : Response Bytes) (c' : Cluster) :
  DoIndices (IndicesExistsRequest [indexName]) (clusters (docWorld aw) client) = (inr resp, c') →
  StatusCode resp = StatusNotFound →
  let r := DoIndices (IndicesCreateRequest indexName body) c' in
  ∃ aw',
    indicesTrace aw' = (indicesTrace aw ++ [(client, IndicesExistsRequest [indexName]);
                                            (client, IndicesCreateRequest indexName body)])%list
    ∧ clusters (docWorld aw') client = r.2
    ∧ (fails r.1 = false → ensureIndex client indexName body aw = (None, aw'))
    ∧ (fails r.1 = true →
       ∃ err, requestError r.1 = Some err
              ∧ ensureIndex client indexName body aw
                = (Some (Errorf_v "failed to create index: " err), aw')).
Proof.
  intros HDo Hs r.
  exists (sentIndices client (IndicesCreateRequest indexName body) r.2
            (sentIndices client (IndicesExistsRequest [indexName]) c' aw)).
  assert (ensureIndex client indexName body aw
          = (match requestError r.1 with
             | Some err => Some (Errorf_v "failed to create index: " err)
             | None => None
             end,
             sentIndices client (IndicesCreateRequest indexName body) r.2
               (sentIndices client (IndicesExistsRequest [indexName]) c' aw))) as Hrun.
  { unfold ensureIndex, mbind, Adm_bind. rewrite indexExists_run. cbn zeta.
    rewrite HDo. cbn [fst snd]. rewrite Hs. cbn [Z.eqb StatusNotFound StatusOK Pos.eqb negb].
    change (404 =? 200) with false. cbn [negb]. rewrite createIndex_run. cbn zeta.
    cbn [sentIndices docWorld clusters]. rewrite fn_lookup_insert. fold r.
    by destruct (requestError r.1). }
  split; [cbn; by rewrite <- app_assoc|]. split; [cbn; by rewrite fn_lookup_insert|].
  split.
  - intros Hok. by rewrite Hrun, (requestError_ok _ Hok).
  - intros Hf. destruct (requestError_fails _ Hf) as [err He]. exists err.
    by rewrite Hrun, He.
Qed.

(** Any answer to the existence check other than 200 and 404, a success
    status like 204 included, and no answer at all, make [ensureIndex]
    return an error under "failed to check if index exist" after that one
    request: nothing is created. *)
Theorem ensureIndex_unexpected_answer
    (client : Client) (indexName : string) (body : Bytes) (aw : AdminWorld) :
  let r := DoIndices (IndicesExistsRequest [indexName]) (clusters (docWorld aw) client) in
  (∀ resp, r.1 = inr resp → StatusCode resp ≠ StatusOK ∧ StatusCode resp ≠ StatusNotFound) →
  ∃ msg,
    ensureIndex client indexName body aw
    = (Some (errorString ("failed to check if index exist: " +:+ msg)),
       sentIndices client (IndicesExistsRequest [indexName]) r.2 aw)
    ∧ ∀ resp, r.1 = inr resp →
        msg = "unexpected response status checking index exists: " +:+ pretty.pretty (StatusCode resp).
Proof.
  intros r Hnot. unfold ensureIndex, mbind, Adm_bind. rewrite indexExists_run. cbn zeta.
  fold r. destruct r.1 as [err|resp] eqn:Hr.
  - eexists. split; [reflexivity|]. intros resp [=].
  - destruct (Hnot resp eq_refl) as [H200 H404].
    rewrite (proj2 (Z.eqb_neq _ _) H200), (proj2 (Z.eqb_neq _ _) H404).
    eexists. split; [reflexivity|]. by intros resp' [= <-].
Qed.

(** What [ensureIndex] leaves behind: requests on indices through its
    client only, every other cluster, the heap and the trace of document
    requests as they were. *)
Lemma ensureIndex_footprint (client : Client) (indexName : string) (body : Bytes)
    (aw aw' : AdminWorld) (e : option error) :
  ensureIndex client indexName body aw = (e, aw') →
  (∃ later, indicesTrace aw' = (indicesTrace aw ++ later)%list
            ∧ Forall (fun sent_ : Client * IndicesRequest Bytes => sent_.1 = client) later)
  ∧ (∀ c, c ≠ client → clusters (docWorld aw') c = clusters (docWorld aw) c)
  ∧ heap (docWorld aw') = heap (docWorld aw)
  ∧ trace (docWorld aw') = trace (docWorld aw).
Proof.
  unfold ensureIndex, mbind, Adm_bind. rewrite indexExists_run. cbn zeta.
  set (r := DoIndices _ _).
  assert (∀ e0,
            (e0, sentIndices client (IndicesExistsRequest [indexName]) r.2 aw) = (e, aw') →
            (∃ later, indicesTrace aw' = (indicesTrace aw ++ later)%list
               ∧ Forall (fun sent_ : Client * IndicesRequest Bytes => sent_.1 = client) later)
            ∧ (∀ c, c ≠ client → clusters (docWorld aw') c = clusters (docWorld aw) c)
            ∧ heap (docWorld aw') = heap (docWorld aw)
            ∧ trace (docWorld aw') = trace (docWorld aw)) as Hone.
  { intros e0 [= <- <-].
    split; [eexists; split; [reflexivity|]; by repeat constructor|].
    split; [|done]. intros c Hc. cbn. by rewrite fn_lookup_insert_ne. }
  destruct r.1 as [err|resp]; [by apply Hone|].
  destruct (StatusCode resp =? StatusOK); [by apply Hone|].
  destruct (StatusCode resp =? StatusNotFound); [|by apply Hone].
  cbn [negb]. rewrite createIndex_run. cbn zeta.
  set (r2 := DoIndices _ _).
  assert (indicesTrace (sentIndices client (IndicesCreateRequest indexName body) r2.2
                          (sentIndices client (IndicesExistsRequest [indexName]) r.2 aw))
          = (indicesTrace aw ++ [(client, IndicesExistsRequest [indexName]);
                                 (client, IndicesCreateRequest indexName body)])%list) as Ht.
  { cbn. by rewrite <- app_assoc. }
  destruct (requestError r2.1); intros [= <- <-];
    (split; [eexists; split; [exact Ht|]; by repeat constructor|]);
    (split; [|done]); intros c Hc; cbn; by rewrite !fn_lookup_insert_ne.
Qed.

Lemma CreateIndex_run (os : OpenSearch) (indexName : string) (config : option DocMap)
    (configByte : Bytes) (aw : AdminWorld) :
  json_Marshal (config_value config) = inr configByte →
  CreateIndex os indexName config aw
  = match ensureIndex (primaryClient os) indexName configByte aw with
    | (Some err, aw1) => (Some (Errorf_v "primary client: " err), aw1)
    | (None, aw1) =>
        match secondaryClient os with
        | None => (None, aw1)
        | Some sc =>
            match ensureIndex sc indexName configByte aw1 with
            | (Some err, aw2) => (Some (Errorf_v "secondary client: " err), aw2)
            | (None, aw2) => (None, aw2)
            end
        end
    end.
Proof.
  intros Hm. unfold CreateIndex. rewrite Hm. unfold mbind, Adm_bind.
  destruct (ensureIndex (primaryClient os) _ _ aw) as [[err|] aw1]; [done|].
  destruct (secondaryClient os) as [sc|]; [|done].
  by destruct (ensureIndex sc _ _ aw1) as [[err|] aw2].
Qed.

(** When the index exists on every configured cluster, [CreateIndex]
    returns nil and has only asked: one existence check on the primary,
    then one on the secondary, and no creation. *)
Theorem CreateIndex_existing_everywhere
    (os : OpenSearch) (sc : Client) (indexName : string) (config : option DocMap)
    (configByte : Bytes) (aw : AdminWorld) (resp1 resp2 : Response Bytes) (c1 c2 : Cluster) :
  json_Marshal (config_value config) = inr configByte →
  secondaryClient os = Some sc →
  DoIndices (IndicesExistsRequest [indexName]) (clusters (docWorld aw) (primaryClient os))
    = (inr resp1, c1) →
  StatusCode resp1 = StatusOK →
  DoIndices (IndicesExistsRequest [indexName])
    (clusters (docWorld (sentIndices (primaryClient os) (IndicesExistsRequest [indexName]) c1 aw)) sc)
    = (inr resp2, c2) →
  StatusCode resp2 = StatusOK →
  ∃ aw',
    CreateIndex os indexName config aw = (None, aw')
    ∧ indicesTrace aw' = (indicesTrace aw ++ [(primaryClient os, IndicesExistsRequest [indexName]);
                                            (sc, IndicesExistsRequest [indexName])])%list.
Proof.
  intros Hm Hsc HDo1 Hs1 HDo2 Hs2. eexists.
  assert (∀ client aw0 resp c',
            DoIndices (IndicesExistsRequest [indexName]) (clusters (docWorld aw0) client)
              = (inr resp, c') →
            StatusCode resp = StatusOK →
            ensureIndex client indexName configByte aw0
            = (None, sentIndices client (IndicesExistsRequest [indexName]) c' aw0)) as Hexists.
  { intros client aw0 resp c' HDo Hs. unfold ensureIndex, mbind, Adm_bind.
    rewrite indexExists_run. cbn zeta. rewrite HDo. cbn [fst snd]. by rewrite Hs. }
  rewrite (CreateIndex_run _ _ _ _ _ Hm).
  rewrite (Hexists _ _ _ _ HDo1 Hs1), Hsc.
  rewrite (Hexists _ _ _ _ HDo2 Hs2).
  split; [reflexivity|]. cbn. by rewrite <- app_assoc.
Qed.

(** When the primary step of [CreateIndex] fails, the error carries the
    primary tag and the call ends there: every request on indices went
    through the primary client, and every other cluster is as it was. *)
Theorem CreateIndex_primary_failure
    (os : OpenSearch) (indexName : string) (config : option DocMap) (configByte : Bytes)
    (aw : AdminWorld) (err : error) :
  json_Marshal (config_value config) = inr configByte →
  (ensureIndex (primaryClient os) indexName configByte aw).1 = Some err →
  ∃ e aw',
    CreateIndex os indexName config aw = (Some e, aw')
    ∧ tagged "primary" e
    ∧ (∃ later, indicesTrace aw' = (indicesTrace aw ++ later)%list
                ∧ Forall (fun sent_ : Client * IndicesRequest Bytes =>
                            sent_.1 = primaryClient os) later)
    ∧ ∀ c, c ≠ primaryClient os → clusters (docWorld aw') c = clusters (docWorld aw) c.
Proof.
  intros Hm Hfail. rewrite (CreateIndex_run _ _ _ _ _ Hm).
  destruct (ensureIndex (primaryClient os) _ _ aw) as [e1 aw1] eqn:H1.
  cbn in Hfail. subst e1.
  destruct (ensureIndex_footprint _ _ _ _ _ _ H1) as (Hlater & Hother & _ & _).
  eexists _, _. split; [reflexivity|]. split; [by exists (Error err)|]. done.
Qed.

(** When the primary step of [CreateIndex] goes through and the secondary
    step fails, the error carries the secondary tag and the primary
    cluster keeps the state its step left it in: nothing is undone. *)
Theorem CreateIndex_secondary_failure
    (os : OpenSearch) (sc : Client) (indexName : string) (config : option DocMap)
    (configByte : Bytes) (aw aw1 : AdminWorld) (err : error) :
  json_Marshal (config_value config) = inr configByte →
  secondaryClient os = Some sc →
  sc ≠ primaryClient os →
  ensureIndex (primaryClient os) indexName configByte aw = (None, aw1) →
  (ensureIndex sc indexName configByte aw1).1 = Some err →
  ∃ e aw',
    CreateIndex os indexName config aw = (Some e, aw')
    ∧ tagged "secondary" e
    ∧ clusters (docWorld aw') (primaryClient os) = clusters (docWorld aw1) (primaryClient os).
Proof.
  intros Hm Hsc Hne H1 Hfail. rewrite (CreateIndex_run _ _ _ _ _ Hm), H1, Hsc.
  destruct (ensureIndex sc _ _ aw1) as [e2 aw2] eqn:H2. cbn in Hfail. subst e2.
  destruct (ensureIndex_footprint _ _ _ _ _ _ H2) as (_ & Hother & _ & _).
  eexists _, _. split; [reflexivity|]. split; [by exists (Error err)|].
  apply Hother. done.
Qed.

End AdminFacts.
(* ===================================================================== *)
(** ** The engine on the in-memory clusters *)
(* ===================================================================== *)

Import Mem.

Lemma Mem_rangeOrder_perm (m : DocMap) : rangeOrder m ≡ₚ map_to_list m.
Proof. reflexivity. Qed.

Lemma Mem_decodeSource_source (m : DocMap) : decodeSource (source m) = inr (Some m).
Proof.
  unfold decodeSource, source, assoc. rewrite bool_decide_eq_true_2 by done.
  by rewrite list_to_map_to_list.
Qed.


Lemma Mem_passes (x : string) (m : DocMap) :
  passes (VString x) m = true → m !! "instance_id" = Some (VString x).
Proof.
  unfold passes. destruct (m !! "instance_id") as [[]|]; try done.
  intros H. by apply bool_decide_eq_true in H as ->.
Qed.

Lemma Mem_honours_instance_filter : honours_instance_filter.
Proof.
  intros c c' q x body resp hits [= <-] Hq HDo Hok Hdec.
  change (do (SearchRequest q) c = (inr resp, c')) in HDo.
  unfold do in HDo. destruct (down c).
  { injection HDo as <- <-. discriminate. }
  rewrite Hq in HDo. injection HDo as <- <-.
  change (decodeHits (VObject [("hits", VObject [("hits",
            VList (source <$> filter (fun m => passes (VString x) m = true)
                                     ((snd <$> map_to_list (docs c)) : list DocMap)))])])
          = inr hits) in Hdec.
  injection Hdec as <-.
  apply Forall_forall. intros hit Hhit. apply list_elem_of_In in Hhit.
  apply list_elem_of_fmap in Hhit as (v & -> & Hv).
  apply list_elem_of_fmap in Hv as (m & -> & Hm).
  apply list_elem_of_filter in Hm as [Hpass _].
  exists m. split; [|by apply Mem_passes].
  unfold hitSource. by rewrite Mem_decodeSource_source.
Qed.

(** A run is known from its result and the world it ends in. *)
Lemma run_eq {A} (run : outcome A * World) (a : outcome A) :
  run.1 = a → run = (a, run.2).
Proof. destruct run as [a' w']. cbn. by intros ->. Qed.

(** C9 at work: an empty entity name. *)
Lemma AddDocumentMetaData_missing_field_witness :
  ∃ field : string,
    AddDocumentMetaData (Some 0%nat) "i" EmptyString "1" fresh_world
      = (Return (inl (errors_New (field +:+ " is required"))), fresh_world)
    ∧ field = "entityName".
Proof.
  destruct (AddDocumentMetaData_missing_field (Some 0%nat) "i" EmptyString "1" fresh_world)
    as (field & Hrun & Hfield).
  { right. left. reflexivity. }
  exists field. split; [exact Hrun|].
  destruct Hfield as [[_ H]|[[_ H]|[H _]]]; [discriminate H|discriminate H|exact H].
Defined.

(** C10 at work: the caller's map at location 0 after the call. *)
Lemma AddDocumentMetaData_in_place_witness :
  ∃ w', AddDocumentMetaData (Some 0%nat) "i" "person" "1" fresh_world = (Return (inr (Some 0%nat)), w')
        ∧ heap w' !! 0%nat
          = Some (<["entity_name" := VString "person"]>
                    (<["instance_id" := VString "i"]>
                      (<["id" := VString "1"]> {[ "name" := VString "A" ]})))
        ∧ heap (PutDocument single "i" "idx" "person" "1" (Some 0%nat) [] fresh_world).2 = heap w'.
Proof.
  destruct (AddDocumentMetaData_in_place 0%nat "i" "person" "1" fresh_world)
    as (w' & Hrun & Hheap & _ & _ & Hput); [discriminate..|].
  exists w'. split; [exact Hrun|]. split; [|apply Hput].
  rewrite Hheap. vm_compute. reflexivity.
Defined.

(** C2 at work: the secondary is down; the error names it and the primary
    holds the document. *)
Lemma fan_out_primary_first_witness :
  ∃ e, (PutDocument dual "i" "idx" "person" "1" (Some 0%nat) [] split_world).1 = Return (Some e)
       ∧ tagged "secondary" e
       ∧ docs (clusters (PutDocument dual "i" "idx" "person" "1" (Some 0%nat) [] split_world).2 "primary")
           !! ("idx", "i-person-1")
         = Some (stamped "i" "person" "1" {[ "name" := VString "A" ]}).
Proof.
  destruct (fan_out_primary_first dual) as [HPut _].
  destruct (HPut split_world "i" "idx" "person" "1" 0%nat []
              (VObject (map_to_list (stamped "i" "person" "1" (heap split_world !!! 0%nat)))))
    as (_ & _ & Hsec); [discriminate..|reflexivity|].
  destruct (Hsec ltac:(vm_compute; reflexivity) "secondary" eq_refl ltac:(vm_compute; reflexivity))
    as (e & Hrun & Htag & _ & Hprim).
  exists e. split; [exact Hrun|]. split; [exact Htag|].
  specialize (Hprim ltac:(discriminate)).
  change (primaryClient dual) with "primary" in Hprim.
  rewrite Hprim. vm_compute. reflexivity.
Defined.

(** C6 at work: the primary has not got the document, the secondary has. *)
Lemma FindDocument_primary_not_found_witness :
  ∃ e w', FindDocument dual "i" "idx" "person" "1" vacant_world = (Return (inl e), w')
          ∧ errors_Is e ErrDocumentNotFound = true
          ∧ trace w' = [("primary", GetRequest "idx" "i-person-1")]
          ∧ clusters w' "secondary" = clusters vacant_world "secondary".
Proof.
  destruct (FindDocument_primary_not_found dual "i" "idx" "person" "1" vacant_world
              (mkResponse 404 VNil) empty)
    as (e & w' & Hrun & HIs & _ & Htrace & Hclusters & _);
    [vm_compute; reflexivity|reflexivity|].
  exists e, w'. split; [exact Hrun|]. split; [exact HIs|]. split; [exact Htrace|].
  apply Hclusters. discriminate.
Defined.

(** C5 at work: the secondary has not got the document. *)
Lemma FindDocument_secondary_not_found_witness :
  ∃ e w2, FindDocument dual "i" "idx" "person" "1" behind_world = (Return (inl e), w2)
          ∧ Error e = "secondary client: document not found"
          ∧ errors_Is e ErrDocumentNotFound = true
          ∧ errors_Is e ErrDocumentMismatch = false.
Proof.
  destruct (FindDocument_secondary_not_found dual "secondary" "i" "idx" "person" "1" behind_world
              (findDocument "primary" "idx" "i-person-1" behind_world).2
              (Some 1%nat) (mkResponse 404 VNil) empty)
    as (e & w2 & Hrun & He & _ & HIs & HIsnt);
    [reflexivity|apply run_eq; vm_compute; reflexivity|vm_compute; reflexivity|reflexivity|].
  exists e, w2. split; [exact Hrun|]. split; [by rewrite He|]. split; [exact HIs|exact HIsnt].
Defined.

(** C5 as the claim has it, refuted: the primary lookup returns the document,
    the secondary answers 404, and the error [FindDocument] returns is not
    [ErrDocumentMismatch]. *)
Lemma FindDocument_secondary_not_found_not_mismatch :
  secondaryClient dual = Some "secondary"
  ∧ (findDocument (primaryClient dual) "idx" (GenerateDocumentID "i" "person" "1") behind_world).1
    = Return (inr (Some 1%nat))
  ∧ heap (findDocument (primaryClient dual) "idx" (GenerateDocumentID "i" "person" "1")
            behind_world).2 !! 1%nat
    = Some {[ "name" := VString "A" ]}
  ∧ (Do (GetRequest "idx" (GenerateDocumentID "i" "person" "1"))
        (clusters (findDocument (primaryClient dual) "idx" (GenerateDocumentID "i" "person" "1")
                     behind_world).2 "secondary")).1
    = inr (mkResponse StatusNotFound VNil)
  ∧ ∃ e, (FindDocument dual "i" "idx" "person" "1" behind_world).1 = Return (inl e)
         ∧ errors_Is e ErrDocumentMismatch = false.
Proof.
  split; [reflexivity|]. split; [vm_compute; reflexivity|].
  split; [vm_compute; reflexivity|]. split; [vm_compute; reflexivity|].
  eexists. split; [vm_compute; reflexivity|]. reflexivity.
Qed.

(** C1 at work: the two clusters hold different lists under one field. *)
Lemma FindDocument_uncomparable_fields_panic_witness :
  (FindDocument dual "i" "idx" "person" "1" lists_world).1 = Panic "comparing uncomparable type".
Proof.
  rewrite (FindDocument_uncomparable_fields_panic dual "secondary" "i" "idx" "person" "1"
             lists_world
             (findDocument "primary" "idx" "i-person-1" lists_world).2
             (findDocument "secondary" "idx" "i-person-1"
                (findDocument "primary" "idx" "i-person-1" lists_world).2).2
             (Some 1%nat) (Some 2%nat) "tags" [VString "a"] [VString "b"]
             Mem_rangeOrder_perm eq_refl);
    [reflexivity|apply run_eq|apply run_eq|..]; vm_compute; reflexivity.
Defined.

(** C7 at work: a document with one list field, compared with itself. *)
Lemma compareDocuments_uncomparable_panics_witness :
  compareDocuments (Some 0%nat) (Some 0%nat) (world {[ "tags" := VList [VString "a"] ]} empty empty)
  = (Panic "comparing uncomparable type", world {[ "tags" := VList [VString "a"] ]} empty empty).
Proof.
  apply (compareDocuments_uncomparable_panics Mem_rangeOrder_perm
           (Some 0%nat) (Some 0%nat) _ "tags" (VList [VString "a"]));
    vm_compute; reflexivity.
Defined.


(** C4 at work: two tenants hold a document with the same text; a search
    for tenant "i" returns one document, and it is the one of "i". *)
Lemma Search_primary_only_instance_filter_witness :
  ∃ d, (Search dual "i" {| Value_ := "Doe" |} tenants_world).1 = Return (inr [d])
       ∧ deref (heap (Search dual "i" {| Value_ := "Doe" |} tenants_world).2) d !! "instance_id"
         = Some (VString "i")
       ∧ trace (Search dual "i" {| Value_ := "Doe" |} tenants_world).2
         = [("primary", SearchRequest (constructSearchQuery "i" {| Value_ := "Doe" |}))].
Proof.
  destruct (Search_primary_only_instance_filter dual "i" {| Value_ := "Doe" |} tenants_world)
    as (_ & Htrace & _ & Hdocs).
  exists (Some 1%nat).
  assert ((Search dual "i" {| Value_ := "Doe" |} tenants_world).1 = Return (inr [Some 1%nat])) as Hrun.
  { vm_compute. reflexivity. }
  split; [exact Hrun|]. split; [|exact Htrace].
  apply (Hdocs Mem_honours_instance_filter _ Hrun). left.
Defined.

(* ===================================================================== *)
(** ** The further properties on the in-memory clusters *)
(* ===================================================================== *)

Import MemAdmin MemCases.

Lemma pair_eq {A B} (p : A * B) (a : A) : p.1 = a → p = (a, p.2).
Proof. destruct p. cbn. by intros ->. Qed.

Lemma Mem_decodeSource_errors (b : Value) (err : error) :
  decodeSource b = inl err → errors_Is err ErrDocumentMismatch = false.
Proof.
  unfold decodeSource. destruct b; try (by intros [= <-]).
  destruct (assoc "_source" fields) as [[]|]; by intros [= <-].
Qed.

Lemma GenerateDocumentID_injective_without_sep_witness :
  "tenant" = "tenant" ∧ "person" = "person" ∧ "p-1" = "p-1".
Proof.
  apply (GenerateDocumentID_injective_without_sep "tenant" "person" "p-1" "tenant" "person" "p-1");
    reflexivity.
Defined.

Lemma AddDocumentMetaData_twice_witness :
  ∃ w1,
    AddDocumentMetaData (Some 0%nat) "i" "person" "1" fresh_world = (Return (inr (Some 0%nat)), w1)
    ∧ AddDocumentMetaData (Some 0%nat) "i" "person" "1" w1 = (Return (inr (Some 0%nat)), w1).
Proof. apply (AddDocumentMetaData_twice 0%nat "i" "person" "1" fresh_world); discriminate. Defined.

Lemma PutDocument_missing_identifier_witness :
  ∃ field : string,
    PutDocument dual "i" "idx" EmptyString "1" (Some 0%nat) [] fresh_world
    = (Return (Some (errorString ("missing document meta data " +:+ field +:+ " is required"))),
       fresh_world).
Proof.
  apply (PutDocument_missing_identifier dual "i" "idx" EmptyString "1" (Some 0%nat) [] fresh_world).
  right. left. reflexivity.
Defined.

Lemma PutDocument_nil_document_panics_witness :
  PutDocument dual "i" "idx" "person" "1" None [] fresh_world
  = (Panic "assignment to entry in nil map", fresh_world).
Proof.
  apply (PutDocument_nil_document_panics dual "i" "idx" "person" "1" [] fresh_world); discriminate.
Defined.

Lemma PutDocument_marshal_failure_witness :
  ∃ w',
    @PutDocument MemStrict.env dual "i" "idx" "person" "1" (Some 0%nat) [] MemStrict.nan_world
    = (Return (Some (errorString "failed to marshal document json: unsupported value: NaN")), w')
    ∧ trace w' = []
    ∧ heap w' !! 0%nat = Some (stamped "i" "person" "1" {[ "score" := VNumber Float64.NaN ]}).
Proof.
  destruct (@PutDocument_marshal_failure MemStrict.env dual "i" "idx" "person" "1" 0%nat []
              MemStrict.nan_world (errorString "json: unsupported value: NaN"))
    as (w' & Hrun & Htrace & _ & Hheap); [discriminate..|vm_compute; reflexivity|].
  exists w'. split; [exact Hrun|]. split; [exact Htrace|].
  rewrite Hheap. vm_compute. reflexivity.
Defined.

Lemma PutDocument_success_reaches_every_cluster_witness :
  ∃ docByte : Value,
    trace (PutDocument dual "i" "idx" "person" "1" (Some 0%nat) [] fresh_world).2
    = [("primary", IndexRequest "idx" "i-person-1" docByte "false");
       ("secondary", IndexRequest "idx" "i-person-1" docByte "false")].
Proof.
  destruct (PutDocument_success_reaches_every_cluster dual "i" "idx" "person" "1" (Some 0%nat) []
              fresh_world (PutDocument dual "i" "idx" "person" "1" (Some 0%nat) [] fresh_world).2)
    as (l & docByte & _ & _ & _ & _ & _ & Htrace & _).
  { apply run_eq. vm_compute. reflexivity. }
  exists docByte. exact Htrace.
Defined.

Lemma Delete_success_reaches_every_cluster_witness :
  trace (DeleteDocument dual "i" "idx" "person" "1" agreed_world).2
  = [("primary", DeleteRequest "idx" "i-person-1"); ("secondary", DeleteRequest "idx" "i-person-1")]
  ∧ trace (DeleteIndex dual "idx" agreed_world).2
    = [("primary", IndicesDeleteRequest "idx"); ("secondary", IndicesDeleteRequest "idx")].
Proof.
  split.
  - destruct (Delete_success_reaches_every_cluster dual agreed_world
                (DeleteDocument dual "i" "idx" "person" "1" agreed_world).2) as [HD _].
    destruct (HD "i" "idx" "person" "1") as [Htrace _]; [|exact Htrace].
    apply run_eq. vm_compute. reflexivity.
  - destruct (Delete_success_reaches_every_cluster dual agreed_world
                (DeleteIndex dual "idx" agreed_world).2) as [_ HI].
    destruct (HI "idx") as [Htrace _]; [|exact Htrace].
    apply run_eq. vm_compute. reflexivity.
Defined.

Lemma decodeResponse_error_status_witness :
  ∃ e, @decodeResponse Mem.env _ decodeSource (mkResponse 500 VNil) = inl e
       ∧ (errors_Is e ErrDocumentNotFound = true ↔ 500 = StatusNotFound).
Proof.
  apply (@decodeResponse_error_status Mem.env _ decodeSource (mkResponse 500 VNil)). reflexivity.
Defined.

Lemma FindDocument_only_reads_witness :
  heap agreed_world ⊆ heap (FindDocument dual "i" "idx" "person" "1" agreed_world).2.
Proof.
  destruct (FindDocument_only_reads dual "i" "idx" "person" "1" agreed_world
              (FindDocument dual "i" "idx" "person" "1" agreed_world).2
              (FindDocument dual "i" "idx" "person" "1" agreed_world).1) as [Hheap _];
    [apply surjective_pairing|exact Hheap].
Defined.

Lemma FindDocument_single_cluster_witness :
  trace (FindDocument single "i" "idx" "person" "1" behind_world).2
  = [("primary", GetRequest "idx" "i-person-1")].
Proof.
  destruct (FindDocument_single_cluster single "i" "idx" "person" "1" behind_world
              (FindDocument single "i" "idx" "person" "1" behind_world).2
              (FindDocument single "i" "idx" "person" "1" behind_world).1) as (_ & Htrace & _);
    [reflexivity|apply surjective_pairing|exact Htrace].
Defined.

Lemma FindDocument_returns_verified_document_witness :
  ∃ secDoc,
    fieldwise_equal
      (deref (heap (FindDocument dual "i" "idx" "person" "1" agreed_world).2) (Some 1%nat))
      (deref (heap (FindDocument dual "i" "idx" "person" "1" agreed_world).2) secDoc).
Proof.
  destruct (FindDocument_returns_verified_document dual "secondary" "i" "idx" "person" "1"
              agreed_world (FindDocument dual "i" "idx" "person" "1" agreed_world).2 (Some 1%nat)
              Mem_rangeOrder_perm eq_refl)
    as (w1 & secDoc & _ & _ & Heq).
  { apply run_eq. vm_compute. reflexivity. }
  exists secDoc. exact Heq.
Defined.

Lemma FindDocument_mismatch_only_from_comparison_witness :
  ∃ sc, secondaryClient dual = Some sc.
Proof.
  destruct (FindDocument_mismatch_only_from_comparison dual "i" "idx" "person" "1"
              differ_world (FindDocument dual "i" "idx" "person" "1" differ_world).2
              (Errorf_w ("documents mismatch for id " +:+ quote "1" +:+ ": ") ErrDocumentMismatch)
              Mem_decodeSource_errors)
    as (sc & _ & _ & _ & Hsc & _).
  { apply run_eq. vm_compute. reflexivity. }
  { reflexivity. }
  exists sc. exact Hsc.
Defined.

Lemma FindDocument_primary_backend_error_witness :
  ∃ e, (FindDocument dual "i" "idx" "person" "1" down_world).1 = Return (inl e)
       ∧ tagged "primary" e ∧ errors_Is e ErrDocumentNotFound = false.
Proof.
  destruct (FindDocument_primary_backend_error dual "i" "idx" "person" "1" down_world)
    as (e & Hrun & Htag & HIs).
  { vm_compute. reflexivity. }
  { intros resp H. vm_compute in H. injection H as <-. discriminate. }
  exists e. rewrite Hrun. by repeat split.
Defined.

Lemma FindDocument_no_source_witness :
  (@FindDocument MemStrict.env single "i" "idx" "person" "1" MemStrict.stored_world).1
  = Return (inr None).
Proof.
  apply (@FindDocument_no_source MemStrict.env single "i" "idx" "person" "1"
           MemStrict.stored_world (mkResponse 200 (VObject []))
           (holding "idx" "i-person-1" {[ "name" := VString "A" ]}));
    [reflexivity|vm_compute; reflexivity|reflexivity|reflexivity].
Defined.


Lemma Search_error_status_witness :
  (Search dual "i" {| Value_ := "Doe" |} down_world).1
  = Return (inl (errorString "error in response: [response]")).
Proof.
  rewrite (Search_error_status dual "i" {| Value_ := "Doe" |} down_world
             (constructSearchQuery "i" {| Value_ := "Doe" |}) (mkResponse 503 VNil) unreachable);
    [reflexivity|reflexivity|vm_compute; reflexivity|reflexivity].
Defined.



Lemma NewOpenSearch_secondary_endpoints_witness :
  NewOpenSearch "primary" (WithSecondaryEndpoint <$> ["old"; "secondary"]) = inr dual.
Proof.
  apply (NewOpenSearch_secondary_endpoints "primary" "primary" ["old"; "secondary"]
           ["old"; "secondary"]); [reflexivity|].
  repeat constructor.
Defined.

Lemma NewOpenSearch_refused_endpoint_witness :
  NewOpenSearch "primary" (WithSecondaryEndpoint <$> ["secondary"; EmptyString; "other"])
  = inl (errorString "cannot parse url").
Proof.
  destruct (NewOpenSearch_refused_endpoint "primary" ["secondary"] ["other"] EmptyString
              (errorString "cannot parse url") "primary" ["secondary"]) as [_ H].
  apply H; [reflexivity| |reflexivity]. repeat constructor.
Defined.

Lemma ensureIndex_existing_index_witness :
  (@ensureIndex Mem.env adm "primary" "idx" VNil (admin agreed_world)).1 = None
  ∧ indicesTrace (@ensureIndex Mem.env adm "primary" "idx" VNil (admin agreed_world)).2
    = [("primary", IndicesExistsRequest ["idx"])].
Proof.
  rewrite (@ensureIndex_existing_index Mem.env adm "primary" "idx" VNil (admin agreed_world)
             (mkResponse 200 VNil) (holding "idx" "i-person-1" {[ "name" := VString "A" ]}));
    [split; reflexivity|vm_compute; reflexivity|reflexivity].
Defined.

Lemma ensureIndex_absent_index_witness :
  ∃ aw', @ensureIndex Mem.env adm "primary" "idx" VNil (admin fresh_world) = (None, aw')
         ∧ indicesTrace aw' = [("primary", IndicesExistsRequest ["idx"]);
                               ("primary", IndicesCreateRequest "idx" VNil)].
Proof.
  destruct (@ensureIndex_absent_index Mem.env adm "primary" "idx" VNil (admin fresh_world)
              (mkResponse 404 VNil) empty)
    as (aw' & Htrace & _ & Hok & _); [vm_compute; reflexivity|reflexivity|].
  exists aw'. split; [|exact Htrace]. apply Hok. vm_compute. reflexivity.
Defined.

Lemma ensureIndex_unexpected_answer_witness :
  ∃ msg, (@ensureIndex Mem.env adm "primary" "idx" VNil (admin down_world)).1
         = Some (errorString ("failed to check if index exist: " +:+ msg))
         ∧ msg = "unexpected response status checking index exists: 503".
Proof.
  destruct (@ensureIndex_unexpected_answer Mem.env adm "primary" "idx" VNil (admin down_world))
    as (msg & Hrun & Hmsg).
  { intros resp H. vm_compute in H. injection H as <-. split; discriminate. }
  exists msg. rewrite Hrun. split; [reflexivity|].
  rewrite (Hmsg (mkResponse 503 VNil)); [vm_compute; reflexivity|vm_compute; reflexivity].
Defined.

Lemma CreateIndex_existing_everywhere_witness :
  ∃ aw', CreateIndex dual "idx" None (admin agreed_world) = (None, aw')
         ∧ indicesTrace aw' = [("primary", IndicesExistsRequest ["idx"]);
                               ("secondary", IndicesExistsRequest ["idx"])].
Proof.
  apply (@CreateIndex_existing_everywhere Mem.env adm dual "secondary" "idx" None VNil (admin agreed_world)
           (mkResponse 200 VNil) (mkResponse 200 VNil)
           (holding "idx" "i-person-1" {[ "name" := VString "A" ]})
           (holding "idx" "i-person-1" {[ "name" := VString "A" ]}));
    [reflexivity|reflexivity|vm_compute; reflexivity|reflexivity|vm_compute; reflexivity|reflexivity].
Defined.

Lemma CreateIndex_primary_failure_witness :
  ∃ e, (CreateIndex dual "idx" None (admin down_world)).1 = Some e ∧ tagged "primary" e
       ∧ clusters (docWorld (CreateIndex dual "idx" None (admin down_world)).2) "secondary"
         = clusters down_world "secondary".
Proof.
  edestruct (@CreateIndex_primary_failure Mem.env adm dual "idx" None VNil (admin down_world))
    as (e & aw' & Hrun & Htag & _ & Hother); [reflexivity|vm_compute; reflexivity|].
  exists e. rewrite Hrun. split; [reflexivity|]. split; [exact Htag|].
  apply Hother. discriminate.
Defined.

Lemma CreateIndex_secondary_failure_witness :
  ∃ e, (CreateIndex dual "idx" None (admin split_world)).1 = Some e ∧ tagged "secondary" e.
Proof.
  edestruct (@CreateIndex_secondary_failure Mem.env adm dual "secondary" "idx" None VNil (admin split_world)
               (@ensureIndex Mem.env adm "primary" "idx" VNil (admin split_world)).2)
    as (e & aw' & Hrun & Htag & _);
    [reflexivity|reflexivity|discriminate|apply pair_eq; vm_compute; reflexivity
    |vm_compute; reflexivity|].
  exists e. rewrite Hrun. split; [reflexivity|exact Htag].
Defined.
